(** * ThermaGraph: unit conversion, state formatting and plot wiring

    A shallow embedding of the first-party logic of [Plotter.py]
    (class [FluidDiagramPlotter]) and [Frame.py] (class [MainWindow]).

    Modelling conventions.
    - Python floats are idealised as exact rationals [Q]; equality of
      computed values is [Qeq] ([==]).  Every arithmetic expression keeps
      the association of the Python source.  What holds of the rationals
      holds of the code up to rounding only: the modules [FrameF] and
      [PlotterF] give the same conversions on IEEE binary64, the
      arithmetic of the Python [float], for the statements that depend
      on it.
    - Python [str] is [string]; a literal such as ["°C"] is its UTF-8
      byte sequence, on which equality and substring containment agree
      with the code-point view.
    - A Python [dict] used as a lookup table is a [gmap]; a [dict] that is
      iterated (the fluid-states mapping, the isoline settings) is an
      association list in insertion order.
    - Raising is explicit: fallible code returns [result]. *)

From Stdlib Require Import QArith Qfield Floats.
From stdpp Require Import gmap strings list fin_maps pretty.

(** ** Python exceptions and the result monad *)

Module Py.

Inductive exn : Type :=
| ValueError (msg : string)
| KeyError (key : string)
| StopIteration
| AttributeError (msg : string)
| ZeroDivisionError (msg : string)
| OSError (msg : string).

Inductive result (A : Type) : Type :=
| Ok (a : A)
| Raise (e : exn).
Global Arguments Ok {A} a.
Global Arguments Raise {A} e.

Definition bind {A B} (r : result A) (k : A -> result B) : result B :=
  match r with
  | Ok a => k a
  | Raise e => Raise e
  end.

(** [isinstance(e, ValueError)], the test of [except ValueError]. *)
Definition is_ValueError (e : exn) : bool :=
  match e with
  | ValueError _ => true
  | _ => false
  end.

(** [str(e)].  For a [KeyError] Python prints the [repr] of the key;
    the quoting of a plain key is modelled, not its escapes. *)
Definition str (e : exn) : string :=
  match e with
  | ValueError msg => msg
  | KeyError key => "'" +:+ key +:+ "'"
  | StopIteration => ""
  | AttributeError msg => msg
  | ZeroDivisionError msg => msg
  | OSError msg => msg
  end.

(** [d[key]] on a lookup table. *)
Definition getitem {V} (d : gmap string V) (key : string) : result V :=
  match d !! key with
  | Some v => Ok v
  | None => Raise (KeyError key)
  end.

(** [d.get(key, default)]. *)
Definition get {V} (d : gmap string V) (key : string) (dflt : V) : V :=
  match d !! key with
  | Some v => v
  | None => dflt
  end.

(** [sub in s] on strings: [sub] occurs in [s] as a contiguous block. *)
Fixpoint contains (sub s : string) : bool :=
  String.prefix sub s ||
  match s with
  | EmptyString => false
  | String _ s' => contains sub s'
  end.

(** [next(iter(l))] on an already materialised sequence. *)
Definition next {A} (l : list A) : result A :=
  match l with
  | [] => Raise StopIteration
  | a :: _ => Ok a
  end.

(** [str(n)] for a non-negative [int]. *)
Definition str_int (n : nat) : string := pretty n.

End Py.

Export Py.

Notation "'let*' x ':=' r 'in' k" := (Py.bind r (fun x => k))
  (at level 10, x pattern, r at level 100, k at level 200).

(** ** Unit tables of the form (Frame.py, [create_input_fields]) *)

Module Units.

Definition pressure : list string :=
  ["bar"; "hPa"; "mbar"; "psi"; "kPa"; "Pa"; "MPa"].
Definition temperature : list string := ["°C"; "K"; "°F"].
Definition entropy : list string := ["J/kgK"; "kJ/kgK"; "MJ/kgK"].
Definition enthalpy : list string := ["kJ/kg"; "J/kg"; "MJ/kg"].
Definition volume : list string := ["m^3/kg"; "l/kg"].
Definition vapor_fraction : list string := ["-"; "%"].

(** The six quantity kinds, by their unit-system key. *)
Definition kinds : list string := ["p"; "T"; "s"; "h"; "v"; "Q"].

(** The items of the combo box [unit_system_<kind>]. *)
Definition supported (kind : string) : list string :=
  if decide (kind = "p") then pressure
  else if decide (kind = "T") then temperature
  else if decide (kind = "s") then entropy
  else if decide (kind = "h") then enthalpy
  else if decide (kind = "v") then volume
  else if decide (kind = "Q") then vapor_fraction
  else [].

(** The diagram types offered by [diagram_type_input]. *)
Definition diagram_types : list string :=
  ["Ts"; "hs"; "logph"; "Th"; "plogv"].

End Units.

(** ** Plotter.py: class [FluidDiagramPlotter] *)

Module Plotter.

Local Open Scope Q_scope.

(** One sample of a point, as stored in a states mapping. *)
Definition state : Type := (Q * Q)%type.

(** A states mapping: point name to its samples, in insertion order. *)
Definition states_map : Type := list (string * list state).

(** A connection [(start, end, line_type)]. *)
Definition connection : Type := (string * string * string)%type.

Definition default_unit_system : gmap string string :=
  {[ "p" := "Pa"; "T" := "°C"; "s" := "J/kgK"; "h" := "J/kg";
     "v" := "m^3/kg"; "Q" := "-" ]}.

Definition bar_to_Pa (p_bar : Q) : Q := p_bar * 1e5.

(** *** Conversion from SI to the selected unit system *)

Definition convert_temperature (unit_system : gmap string string) (T : Q)
  : result Q :=
  let* u := getitem unit_system "T" in
  if decide (u = "°C") then Ok (T - 273.15)
  else if decide (u = "°F") then Ok ((T - 273.15) * 9 / 5 + 32)
  else Ok T.

Definition convert_entropy (unit_system : gmap string string) (S : Q)
  : result Q :=
  let* u := getitem unit_system "s" in
  if decide (u = "kJ/kgK") then Ok (S / 1e3)
  else if decide (u = "MJ/kgK") then Ok (S / 1e6)
  else Ok S.

Definition convert_volume (unit_system : gmap string string) (v : Q)
  : result Q :=
  let* u := getitem unit_system "v" in
  if decide (u = "l/kg") then Ok (v * 1e3) else Ok v.

Definition convert_pressure (unit_system : gmap string string) (p_pa : Q)
  : result Q :=
  let* u := getitem unit_system "p" in
  if decide (u = "hPa") then Ok (p_pa / 1e2)
  else if decide (u = "mbar") then Ok (p_pa / 1e2)
  else if decide (u = "psi") then Ok (p_pa * 0.0001450377)
  else if decide (u = "kPa") then Ok (p_pa / 1e3)
  else if decide (u = "bar") then Ok (p_pa / 1e5)
  else if decide (u = "MPa") then Ok (p_pa / 1e6)
  else Ok p_pa.

Definition convert_enthalpy (unit_system : gmap string string) (h_jkg : Q)
  : result Q :=
  let* u := getitem unit_system "h" in
  if decide (u = "kJ/kg") then Ok (h_jkg / 1e3)
  else if decide (u = "MJ/kg") then Ok (h_jkg / 1e6)
  else Ok h_jkg.

(** The five converted quantities [(Ta, Sa, va, pa, ha)]. *)
Record converted : Type := Converted {
  Ta : Q; Sa : Q; va : Q; pa : Q; ha : Q
}.

Definition convert_units (unit_system : gmap string string)
    (T S v p_pa h_jkg : Q) : result converted :=
  let* Ta := convert_temperature unit_system T in
  let* Sa := convert_entropy unit_system S in
  let* va := convert_volume unit_system v in
  let* pa := convert_pressure unit_system p_pa in
  let* ha := convert_enthalpy unit_system h_jkg in
  Ok (Converted Ta Sa va pa ha).

Definition format_converted_state (diagram_type : string)
    (Ta Sa va pa ha : Q) : result state :=
  if decide (diagram_type = "Ts") then Ok (Ta, Sa)
  else if decide (diagram_type = "hs") then Ok (ha, Sa)
  else if decide (diagram_type = "logph") then Ok (pa, ha)
  else if decide (diagram_type = "Th") then Ok (Ta, ha)
  else if decide (diagram_type = "plogv") then Ok (va, pa)
  else Raise (ValueError ("Unsupported diagram type: " +:+ diagram_type)).

(** *** Styles *)

(** A Matplotlib line style; [linewidth] may be absent from the dict. *)
Record line_style : Type := LineStyle {
  color : string; linestyle : string; linewidth : option Q
}.

Definition connection_line_styles : gmap string line_style :=
  {[ "non-isentropic" := LineStyle "gray" "-" (Some 2);
     "isentropic" := LineStyle "green" "--" (Some 2);
     "default" := LineStyle "gray" ":" (Some 2) ]}.

(** [np.linspace(0, 1, 2)], [np.arange(25, 376, 25)] and the like,
    written out. *)
Definition default_isoline_settings : list (string * list Q) :=
  [ ("Q", [0; 1]);
    ("T", [25; 50; 75; 100; 125; 150; 175; 200; 225; 250; 275; 300;
           325; 350; 375]);
    ("p", [0.01; 0.1; 1; 10; 100; 1000]);
    ("v", [0.001; 0.01; 0.1; 1; 10]);
    ("s", [1000; 3250; 5500; 7750; 10000]);
    ("h", [0; 200; 400; 600; 800; 1000; 1200; 1400; 1600; 1800; 2000;
           2200; 2400; 2600; 2800; 3000; 3200; 3400; 3600]) ].

Definition default_isoline_styles : gmap string line_style :=
  {[ "Q" := LineStyle "blue" "--" (Some 2.5);
     "T" := LineStyle "red" "-" (Some 2.5);
     "p" := LineStyle "green" "-." (Some 2.5);
     "v" := LineStyle "orange" ":" (Some 2.5);
     "s" := LineStyle "purple" "-" (Some 2.5);
     "h" := LineStyle "brown" "--" (Some 2.5) ]}.

(** *** What is drawn on the axes *)

Inductive artist : Type :=
| Marker (x y : Q) (i n : nat)
    (** [ax.plot(x, y, marker='o', color=colors[i])], [n] shades *)
| Annotate (text : string) (x y : Q)
    (** [ax.annotate(text, (x, y), ...)] *)
| Line (x0 x1 y0 y1 : Q) (style : line_style)
    (** [ax.plot([x0, x1], [y0, y1], **style)] *).

(** The colour bar built by [add_color_bar]. *)
Record color_bar : Type := ColorBar {
  vmin : Z; vmax : Z; label : string;
  ticks : list nat; ticklabels : list string
}.

(** The inner loop of [plot_fluid_states]: sample [i] of [n], given as
    [(p, h)], is drawn at abscissa [h] and ordinate [p]. *)
Fixpoint plot_samples (point_name : string) (n i : nat)
    (point_states : list state) (labeled_points : gset string)
  : list artist * gset string :=
  match point_states with
  | [] => ([], labeled_points)
  | (p, h) :: rest =>
      let marker := Marker h p i n in
      if decide (point_name ∈ labeled_points)
      then
        let '(arts, lp) := plot_samples point_name n (S i) rest
                             labeled_points in
        (marker :: arts, lp)
      else
        let '(arts, lp) := plot_samples point_name n (S i) rest
                             ({[point_name]} ∪ labeled_points) in
        (marker :: Annotate point_name h p :: arts, lp)
  end.

Fixpoint plot_points (states : states_map) (labeled_points : gset string)
  : list artist :=
  match states with
  | [] => []
  | (point_name, point_states) :: rest =>
      let '(arts, lp) :=
        plot_samples point_name (length point_states) 0 point_states
          labeled_points in
      arts ++ plot_points rest lp
  end.

(** The generator
    [(state for point, states in states.items() for state in states
      if name in point)], materialised. *)
Definition matching_states (states : states_map) (name : string)
  : list state :=
  concat (map (fun '(point, point_states) =>
                 filter (fun _ => contains name point = true) point_states)
              states).

Fixpoint plot_connections (states : states_map)
    (connections : list connection) : result (list artist) :=
  match connections with
  | [] => Ok []
  | (start, end_, line_type) :: rest =>
      let* start_state := next (matching_states states start) in
      let* end_state := next (matching_states states end_) in
      let* dflt := getitem connection_line_styles "default" in
      let style := get connection_line_styles line_type dflt in
      let* arts := plot_connections states rest in
      Ok (Line (snd start_state) (snd end_state)
               (fst start_state) (fst end_state) style :: arts)
  end.

Definition plot_fluid_states (states : states_map)
    (connections : list connection) : result (list artist) :=
  let arts := plot_points states ∅ in
  match connections with
  | [] => Ok arts
  | _ :: _ =>
      let* lines := plot_connections states connections in
      Ok (arts ++ lines)
  end.

Definition add_color_bar (states : states_map) : result color_bar :=
  let* first := next (map snd states) in
  let num_states := length first in
  Ok (ColorBar 0 (Z.of_nat num_states - 1) "Time Progression"
        (seq 0 num_states)
        (map (fun i => str_int (i + 1)) (seq 0 num_states))).

(** *** The plotter object and its external collaborators *)

Record axis_limits : Type := AxisLimits {
  x_min : Q; x_max : Q; y_min : Q; y_max : Q
}.

(** The attributes of a [FluidDiagramPlotter] that the code reads. *)
Record plotter : Type := MkPlotter {
  fluid : string;
  unit_system : gmap string string;
  diagram_type : string;
  limits : axis_limits;
  isoline_settings : list (string * list Q);
  isoline_styles : gmap string line_style;
  states : states_map
}.

(** What one call of [create_plot] leaves on the figure. *)
Record figure : Type := Figure {
  artists : list artist;
  cbar : color_bar
}.

(** The equation-of-state solver and the diagram library are external:
    their results are parameters, and each call may raise. *)
Record collaborators : Type := Collaborators {
  (** [PropsSI(output, 'P', p_pa, 'H', h_jkg, fluid)] *)
  PropsSI : string -> Q -> Q -> string -> result Q;
  (** [FluidPropertyDiagram(fluid)], [set_unit_system], [set_isolines]
      and [calc_isolines] *)
  diagram_init :
    string -> gmap string string -> gmap string (list Q) -> result unit;
  (** [diagram.draw_isolines(...)] *)
  draw_isolines :
    string -> axis_limits -> gmap string (list Q * line_style) ->
    result unit
}.

Section WithCollaborators.

Variable ext : collaborators.

Definition calculate_properties (fluid : string) (p_pa h_jkg : Q)
  : result (Q * Q * Q) :=
  let* T := PropsSI ext "T" p_pa h_jkg fluid in
  let* S_ := PropsSI ext "S" p_pa h_jkg fluid in
  let* D := PropsSI ext "D" p_pa h_jkg fluid in
  if Qeq_bool D 0
  then Raise (ZeroDivisionError "float division by zero")
  else Ok (T, S_, 1 / D).

(** The inner loop of [convert_states], over the samples of a point. *)
Fixpoint convert_point (fluid : string)
    (unit_system : gmap string string) (target_diagram : string)
    (point_states : list state) : result (list state) :=
  match point_states with
  | [] => Ok []
  | (p_bar, h_kjkg) :: rest =>
      let p_pa := bar_to_Pa p_bar in
      let h_jkg := h_kjkg * 1e3 in
      let* (T, S_, v) := calculate_properties fluid p_pa h_jkg in
      let* c := convert_units unit_system T S_ v p_pa h_jkg in
      let* st := format_converted_state target_diagram
                   (Ta c) (Sa c) (va c) (pa c) (ha c) in
      let* rest' := convert_point fluid unit_system target_diagram
                      rest in
      Ok (st :: rest')
  end.

Fixpoint convert_states (fluid : string)
    (unit_system : gmap string string) (fluid_states : states_map)
    (target_diagram : string) : result states_map :=
  match fluid_states with
  | [] => Ok []
  | (point_name, point_states) :: rest =>
      let* converted := convert_point fluid unit_system target_diagram
                          point_states in
      let* rest' := convert_states fluid unit_system rest
                      target_diagram in
      Ok ((point_name, converted) :: rest')
  end.

(** [x or default] on a dict: the empty dict is falsy. *)
Definition or_default {V} (x dflt : gmap string V) : gmap string V :=
  if decide (x = ∅) then dflt else x.

(** [x or default] on a dict that is kept in insertion order. *)
Definition or_default_items {V} (x dflt : list (string * V))
  : list (string * V) :=
  match x with
  | [] => dflt
  | _ :: _ => x
  end.

(** [FluidDiagramPlotter.__init__]. *)
Definition init (fluid_states : states_map) (fluid : string)
    (unit_system : gmap string string) (diagram_type : string)
    (limits : axis_limits) (isoline_settings : list (string * list Q))
    (isoline_styles : gmap string line_style) : result plotter :=
  let unit_system := or_default unit_system default_unit_system in
  let isoline_settings :=
    or_default_items isoline_settings default_isoline_settings in
  let isoline_styles :=
    or_default isoline_styles default_isoline_styles in
  let* states := convert_states fluid unit_system fluid_states
                   diagram_type in
  let* _ := diagram_init ext fluid unit_system
              (list_to_map isoline_settings) in
  Ok (MkPlotter fluid unit_system diagram_type limits isoline_settings
        isoline_styles states).

(** [get_isoline_data]: the settings are walked in insertion order,
    and every key needs a style. *)
Fixpoint isoline_data_of (styles : gmap string line_style)
    (settings : list (string * list Q))
  : result (gmap string (list Q * line_style)) :=
  match settings with
  | [] => Ok ∅
  | (k, values) :: rest =>
      let* st := getitem styles k in
      let st := LineStyle (color st) (linestyle st)
                  (Some (default 1 (linewidth st))) in
      let* rest' := isoline_data_of styles rest in
      Ok (<[k := (values, st)]> rest')
  end.

Definition get_isoline_data (self : plotter)
  : result (gmap string (list Q * line_style)) :=
  isoline_data_of (isoline_styles self) (isoline_settings self).

Definition create_plot (self : plotter) (connections : list connection)
  : result figure :=
  let* isoline_data := get_isoline_data self in
  let* _ := draw_isolines ext (diagram_type self) (limits self)
              isoline_data in
  let* arts := plot_fluid_states (states self) connections in
  let* cb := add_color_bar (states self) in
  Ok (Figure arts cb).

End WithCollaborators.

End Plotter.

(** ** Frame.py: class [MainWindow] *)

Module Frame.

Local Open Scope Q_scope.

Import Plotter.

(** *** Conversion between display units *)

Definition convert_temperature (value : Q) (old_unit new_unit : string)
  : Q :=
  if decide (old_unit = new_unit) then value
  else if decide (old_unit = "K") then
    if decide (new_unit = "°C") then value - 273.15
    else if decide (new_unit = "°F") then (value - 273.15) * 9 / 5 + 32
    else value
  else if decide (old_unit = "°C") then
    if decide (new_unit = "K") then value + 273.15
    else if decide (new_unit = "°F") then value * 9 / 5 + 32
    else value
  else if decide (old_unit = "°F") then
    if decide (new_unit = "K") then (value - 32) * 5 / 9 + 273.15
    else if decide (new_unit = "°C") then (value - 32) * 5 / 9
    else value
  else value.

Definition pressure_factors : gmap string Q :=
  {[ "Pa" := 1; "hPa" := 100; "kPa" := 1000; "mbar" := 100;
     "bar" := 100000; "psi" := 6894.76; "MPa" := 1e6 ]}.

Definition entropy_factors : gmap string Q :=
  {[ "J/kgK" := 1; "kJ/kgK" := 1000; "MJ/kgK" := 1e6 ]}.

Definition enthalpy_factors : gmap string Q :=
  {[ "J/kg" := 1; "kJ/kg" := 1000; "MJ/kg" := 1e6 ]}.

Definition volume_factors : gmap string Q :=
  {[ "m^3/kg" := 1; "l/kg" := 0.001 ]}.

(** [value * conversion_factors[old_unit] / conversion_factors[new_unit]] *)
Definition convert_by (conversion_factors : gmap string Q) (value : Q)
    (old_unit new_unit : string) : result Q :=
  let* f_old := getitem conversion_factors old_unit in
  let* f_new := getitem conversion_factors new_unit in
  Ok (value * f_old / f_new).

Definition convert_pressure := convert_by pressure_factors.
Definition convert_entropy := convert_by entropy_factors.
Definition convert_enthalpy := convert_by enthalpy_factors.
Definition convert_volume := convert_by volume_factors.

(** The conversion that [convert_field] applies to its start value and
    to its end value, chosen by [field_type].  [convert_units] calls it
    for ['T'], ['p'], ['s'], ['h'] and ['v']; the vapor-fraction fields
    are passed to no conversion and keep their values, which is also
    what the [if]/[elif] chain does for every other [field_type]. *)
Definition convert_field (value : Q) (old_unit new_unit : string)
    (field_type : string) : result Q :=
  if decide (field_type = "T")
  then Ok (convert_temperature value old_unit new_unit)
  else if decide (field_type = "p")
  then convert_pressure value old_unit new_unit
  else if decide (field_type = "s")
  then convert_entropy value old_unit new_unit
  else if decide (field_type = "h")
  then convert_enthalpy value old_unit new_unit
  else if decide (field_type = "v")
  then convert_volume value old_unit new_unit
  else Ok value.

(** [get_axis_units]: the units of the x axis and of the y axis; a
    component is [None] where Python returns [None]. *)
Definition get_axis_units (diagram_type : string)
    (units : gmap string string)
  : result (option string * option string) :=
  if decide (diagram_type = "Ts") then
    let* x := getitem units "s" in
    let* y := getitem units "T" in Ok (Some x, Some y)
  else if decide (diagram_type = "hs") then
    let* x := getitem units "s" in
    let* y := getitem units "h" in Ok (Some x, Some y)
  else if decide (diagram_type = "logph") then
    let* x := getitem units "h" in
    let* y := getitem units "p" in Ok (Some x, Some y)
  else if decide (diagram_type = "Th") then
    let* x := getitem units "h" in
    let* y := getitem units "T" in Ok (Some x, Some y)
  else if decide (diagram_type = "plogv") then
    let* x := getitem units "v" in
    let* y := getitem units "p" in Ok (Some x, Some y)
  else Ok (None, None).

(** *** The window state *)

(** The attributes of [MainWindow] that [update_plot] reads or writes.
    [texts] gives, by attribute name, the text of each [QLineEdit] and
    the current text of each [QComboBox].  [fluid_states] and
    [connections] do not exist until a file has been loaded.  [dialogs]
    lists the messages shown by [show_error_message], oldest first;
    [timers] counts the pending [QTimer.singleShot] calls. *)
Record window : Type := Window {
  texts : gmap string string;
  auto_update_checkbox : bool;
  update_button_style : string;
  fluid_states : option states_map;
  connections : option (list connection);
  current_figure : option figure;
  shown_figure : option figure;
  current_plotter : option plotter;
  dialogs : list string;
  timers : nat
}.

Definition text (w : window) (widget : string) : string :=
  texts w !!! widget.

Definition setStyleSheet (style : string) (w : window) : window :=
  Window (texts w) (auto_update_checkbox w) style (fluid_states w)
    (connections w) (current_figure w) (shown_figure w)
    (current_plotter w) (dialogs w) (timers w).

Definition set_fluid_states (m : states_map) (w : window) : window :=
  Window (texts w) (auto_update_checkbox w) (update_button_style w)
    (Some m) (connections w) (current_figure w) (shown_figure w)
    (current_plotter w) (dialogs w) (timers w).

Definition set_connections (l : list connection) (w : window) : window :=
  Window (texts w) (auto_update_checkbox w) (update_button_style w)
    (fluid_states w) (Some l) (current_figure w) (shown_figure w)
    (current_plotter w) (dialogs w) (timers w).

(** [self.canvas.figure.clear()] followed by [add_subplot(111)]. *)
Definition clear_figure (w : window) : window :=
  Window (texts w) (auto_update_checkbox w) (update_button_style w)
    (fluid_states w) (connections w) None (shown_figure w)
    (current_plotter w) (dialogs w) (timers w).

Definition set_plotter (pl : plotter) (w : window) : window :=
  Window (texts w) (auto_update_checkbox w) (update_button_style w)
    (fluid_states w) (connections w) (current_figure w) (shown_figure w)
    (Some pl) (dialogs w) (timers w).

Definition set_figure (fig : figure) (w : window) : window :=
  Window (texts w) (auto_update_checkbox w) (update_button_style w)
    (fluid_states w) (connections w) (Some fig) (shown_figure w)
    (current_plotter w) (dialogs w) (timers w).

(** A successful [self.canvas.draw()]. *)
Definition show_figure (w : window) : window :=
  Window (texts w) (auto_update_checkbox w) (update_button_style w)
    (fluid_states w) (connections w) (current_figure w)
    (current_figure w) (current_plotter w) (dialogs w) (timers w).

Definition show_error_message (message : string) (w : window) : window :=
  Window (texts w) (auto_update_checkbox w) (update_button_style w)
    (fluid_states w) (connections w) (current_figure w) (shown_figure w)
    (current_plotter w) (dialogs w ++ [message]) (timers w).

Definition singleShot (w : window) : window :=
  Window (texts w) (auto_update_checkbox w) (update_button_style w)
    (fluid_states w) (connections w) (current_figure w) (shown_figure w)
    (current_plotter w) (dialogs w) (S (timers w)).

Definition needs_update_style : string :=
  "background-color: red; color: white;".

Definition mark_update_needed (w : window) : window :=
  let w := setStyleSheet needs_update_style w in
  if auto_update_checkbox w then singleShot w else w.

Definition get_unit_system (w : window) : gmap string string :=
  {[ "p" := text w "unit_system_p"; "T" := text w "unit_system_T";
     "s" := text w "unit_system_s"; "h" := text w "unit_system_h";
     "v" := text w "unit_system_v"; "Q" := text w "unit_system_Q" ]}.

(** *** The environment of the window

    The files, the parsing built-ins, NumPy, the plotting collaborators
    and the canvas are external.  A JSON file is read at the type its
    consumer expects (section 6 of the specification); [json.load] of a
    file of another shape is outside the model. *)
Record environment : Type := Environment {
  ext : collaborators;
  load_states_file : string -> result states_map;
  load_connections_file : string -> result (list connection);
  float : string -> result Q;
  int : string -> result Z;
  linspace : Q -> Q -> Z -> result (list Q);
  geomspace : Q -> Q -> Z -> result (list Q);
  canvas_draw : figure -> result unit
}.

Section WithEnvironment.

Variable env : environment.

(** The body of the [try] of [load_json_files]; what was assigned
    before an exception stays assigned. *)
Definition load_json_files_try (w : window) : window * result unit :=
  let r1 :=
    if decide (text w "fluid_states_input" = "")
    then Raise (ValueError "Please select a fluid states JSON file.")
    else load_states_file env (text w "fluid_states_input") in
  match r1 with
  | Raise e => (w, Raise e)
  | Ok m =>
      let w := set_fluid_states m w in
      let r2 :=
        if decide (text w "connections_input" = "")
        then Raise (ValueError "Please select a connections JSON file.")
        else load_connections_file env (text w "connections_input") in
      match r2 with
      | Raise e => (w, Raise e)
      | Ok l => (set_connections l w, Ok tt)
      end
  end.

Definition load_json_files (w : window) : window :=
  match load_json_files_try w with
  | (w', Ok _) => w'
  | (w', Raise e) =>
      show_error_message ("Error loading JSON files: " +:+ str e) w'
  end.

Definition get_axis_limits (w : window) : result axis_limits :=
  let* xmin := float env (text w "xmin_input") in
  let* xmax := float env (text w "xmax_input") in
  let* ymin := float env (text w "ymin_input") in
  let* ymax := float env (text w "ymax_input") in
  Ok (AxisLimits xmin xmax ymin ymax).

(** One entry of [get_isoline_settings]: [space] is [np.linspace] or
    [np.geomspace]; [k] is the lower-case prefix of the widgets. *)
Definition isoline_values (space : Q -> Q -> Z -> result (list Q))
    (w : window) (k : string) : result (list Q) :=
  let* start := float env (text w (k +:+ "_start_input")) in
  let* stop := float env (text w (k +:+ "_end_input")) in
  let* num := int env (text w (k +:+ "_points_input")) in
  space start stop num.

Definition get_isoline_settings (w : window)
  : result (list (string * list Q)) :=
  let* vQ := isoline_values (linspace env) w "q" in
  let* vT := isoline_values (linspace env) w "t" in
  let* vp := isoline_values (geomspace env) w "p" in
  let* vv := isoline_values (geomspace env) w "v" in
  let* vs := isoline_values (linspace env) w "s" in
  let* vh := isoline_values (linspace env) w "h" in
  Ok [("Q", vQ); ("T", vT); ("p", vp); ("v", vv); ("s", vs);
      ("h", vh)].

Definition isoline_style (w : window) (k : string) : result line_style :=
  let* lw := float env (text w (k +:+ "_linewidth_input")) in
  Ok (LineStyle (text w (k +:+ "_color_input"))
        (text w (k +:+ "_style_input")) (Some lw)).

Definition get_isoline_styles (w : window)
  : result (gmap string line_style) :=
  let* sQ := isoline_style w "q" in
  let* sT := isoline_style w "t" in
  let* sp := isoline_style w "p" in
  let* sv := isoline_style w "v" in
  let* ss := isoline_style w "s" in
  let* sh := isoline_style w "h" in
  Ok {[ "Q" := sQ; "T" := sT; "p" := sp; "v" := sv; "s" := ss;
        "h" := sh ]}.

(** [self.<name>] for an attribute that may not exist yet. *)
Definition getattr {A} (name : string) (a : option A) : result A :=
  match a with
  | Some x => Ok x
  | None =>
      Raise (AttributeError
               ("'MainWindow' object has no attribute '" +:+ name +:+ "'"))
  end.

(** What [update_plot] reads from the form before it touches the
    canvas. *)
Record plot_request : Type := PlotRequest {
  req_fluid : string;
  req_unit_system : gmap string string;
  req_diagram_type : string;
  req_limits : axis_limits;
  req_isoline_settings : list (string * list Q);
  req_isoline_styles : gmap string line_style
}.

Definition read_form (w : window) : result plot_request :=
  let fluid := text w "fluid_input" in
  let unit_system := get_unit_system w in
  let diagram_type := text w "diagram_type_input" in
  let* lim := get_axis_limits w in
  let* isoline_settings := get_isoline_settings w in
  let* isoline_styles := get_isoline_styles w in
  Ok (PlotRequest fluid unit_system diagram_type lim isoline_settings
        isoline_styles).

(** The body of the [try] of [update_plot], with the state it leaves
    behind when a statement raises. *)
Definition update_plot_try (w : window) : window * result unit :=
  let w := load_json_files w in
  match read_form w with
  | Raise e => (w, Raise e)
  | Ok rq =>
      let w := clear_figure w in
      match (let* m := getattr "fluid_states" (fluid_states w) in
             init (ext env) m (req_fluid rq) (req_unit_system rq)
               (req_diagram_type rq) (req_limits rq)
               (req_isoline_settings rq) (req_isoline_styles rq)) with
      | Raise e => (w, Raise e)
      | Ok pl =>
          let w := set_plotter pl w in
          match (let* l := getattr "connections" (connections w) in
                 create_plot (ext env) pl l) with
          | Raise e => (w, Raise e)
          | Ok fig =>
              let w := set_figure fig w in
              match canvas_draw env fig with
              | Raise e => (w, Raise e)
              | Ok _ => (setStyleSheet "" (show_figure w), Ok tt)
              end
          end
      end
  end.

Definition update_plot (w : window) : window :=
  match update_plot_try w with
  | (w', Ok _) => w'
  | (w', Raise e) =>
      if is_ValueError e
      then show_error_message ("Error: " +:+ str e) w'
      else show_error_message ("Unexpected Error: " +:+ str e) w'
  end.

(** The slot of the timer started by [mark_update_needed]. *)
Definition auto_update_plot (w : window) : window :=
  update_plot
    (Window (texts w) (auto_update_checkbox w) (update_button_style w)
       (fluid_states w) (connections w) (current_figure w)
       (shown_figure w) (current_plotter w) (dialogs w)
       (pred (timers w))).

End WithEnvironment.

(** *** Conversion of the axis limits *)

(** [conversion_factors[unit]] for a unit that may be [None]; the text
    of [None] stands for the key in the exception. *)
Definition getitem_unit (conversion_factors : gmap string Q)
    (unit_ : option string) : result Q :=
  match unit_ with
  | Some u => getitem conversion_factors u
  | None => Raise (KeyError "None")
  end.

(** A factor conversion called with units that may be [None]. *)
Definition convert_by_unit (conversion_factors : gmap string Q)
    (value : Q) (old_unit new_unit : option string) : result Q :=
  let* f_old := getitem_unit conversion_factors old_unit in
  let* f_new := getitem_unit conversion_factors new_unit in
  Ok (value * f_old / f_new).

(** [convert_temperature] called with units that may be [None]: [None]
    equals no unit name, so every comparison of the chain fails. *)
Definition convert_temperature_unit (value : Q)
    (old_unit new_unit : option string) : Q :=
  match old_unit, new_unit with
  | Some o, Some n => convert_temperature value o n
  | _, _ => value
  end.

Definition convert_value (value : Q) (old_unit new_unit : option string)
    (diagram_type axis : string) : result Q :=
  if decide (old_unit = new_unit) then Ok value
  else if decide (diagram_type ∈ ["Ts"; "Th"]) then
    if decide (axis = "x")
    then convert_by_unit entropy_factors value old_unit new_unit
    else if decide (axis = "y")
    then Ok (convert_temperature_unit value old_unit new_unit)
    else Ok value
  else if decide (diagram_type ∈ ["hs"; "logph"]) then
    if decide (axis = "x")
    then convert_by_unit enthalpy_factors value old_unit new_unit
    else if decide (axis = "y")
    then convert_by_unit pressure_factors value old_unit new_unit
    else Ok value
  else if decide (diagram_type = "plogv") then
    if decide (axis = "x")
    then convert_by_unit volume_factors value old_unit new_unit
    else if decide (axis = "y")
    then convert_by_unit pressure_factors value old_unit new_unit
    else Ok value
  else Ok value.

(** The limits that [convert_diagram_axis_limits] computes from the
    four limits it has parsed; the blank-field test, [float] and
    [setText(str(...))] around them are not part of this function. *)
Definition convert_diagram_axis_limits (lim : axis_limits)
    (diagram_type : string) (old_units new_units : gmap string string)
  : result axis_limits :=
  let* (x_old_unit, y_old_unit) := get_axis_units diagram_type old_units in
  let* (x_unit, y_unit) := get_axis_units diagram_type new_units in
  let* xmin := convert_value (x_min lim) x_old_unit x_unit diagram_type
                 "x" in
  let* xmax := convert_value (x_max lim) x_old_unit x_unit diagram_type
                 "x" in
  let* ymin := convert_value (y_min lim) y_old_unit y_unit diagram_type
                 "y" in
  let* ymax := convert_value (y_max lim) y_old_unit y_unit diagram_type
                 "y" in
  Ok (AxisLimits xmin xmax ymin ymax).

(** *** Slots that write the form *)

Section WithSignals.

(** Whether [QLineEdit.setText] emits [textChanged] when the text
    goes from the first string to the second is Qt's business. *)
Variable emits : string -> string -> bool.

Definition set_texts (t : gmap string string) (w : window) : window :=
  Window t (auto_update_checkbox w) (update_button_style w)
    (fluid_states w) (connections w) (current_figure w)
    (shown_figure w) (current_plotter w) (dialogs w) (timers w).

(** [setText] on a line edit whose [textChanged] is connected to
    [mark_update_needed] only: the axis limits and the isoline
    ranges. *)
Definition setText (widget new_text : string) (w : window) : window :=
  let old_text := text w widget in
  let w := set_texts (<[widget := new_text]> (texts w)) w in
  if emits old_text new_text then mark_update_needed w else w.

Definition set_isoline_defaults
    (h_start h_end p_start p_end s_start s_end t_start t_end v_start
       v_end q_start q_end : string) (w : window) : window :=
  let w := setText "h_start_input" h_start w in
  let w := setText "h_end_input" h_end w in
  let w := setText "p_start_input" p_start w in
  let w := setText "p_end_input" p_end w in
  let w := setText "s_start_input" s_start w in
  let w := setText "s_end_input" s_end w in
  let w := setText "t_start_input" t_start w in
  let w := setText "t_end_input" t_end w in
  let w := setText "v_start_input" v_start w in
  let w := setText "v_end_input" v_end w in
  let w := setText "q_start_input" q_start w in
  setText "q_end_input" q_end w.

(** The four [setText] calls of one branch of [update_axis_limits]:
    [x] and [y] are the widget prefixes of the two isoline rows. *)
Definition set_axis_limits_from (x y : string) (w : window) : window :=
  let w := setText "xmin_input" (text w (x +:+ "_start_input")) w in
  let w := setText "xmax_input" (text w (x +:+ "_end_input")) w in
  let w := setText "ymin_input" (text w (y +:+ "_start_input")) w in
  setText "ymax_input" (text w (y +:+ "_end_input")) w.

Definition update_axis_limits (diagram_type : string) (w : window)
  : window :=
  if decide (diagram_type = "Ts") then set_axis_limits_from "s" "t" w
  else if decide (diagram_type = "hs")
  then set_axis_limits_from "s" "h" w
  else if decide (diagram_type = "logph")
  then set_axis_limits_from "h" "p" w
  else if decide (diagram_type = "Th")
  then set_axis_limits_from "h" "t" w
  else if decide (diagram_type = "plogv")
  then set_axis_limits_from "v" "p" w
  else w.

Definition update_default_isoline_values (w : window) : window :=
  let fluid := text w "fluid_input" in
  let w :=
    if decide (fluid = "H2O")
    then set_isoline_defaults "0" "3500" "0.01" "10000" "100" "9000"
           "40" "400" "0.01" "100" "0" "1" w
    else if decide (fluid = "CO2")
    then set_isoline_defaults "0" "700" "20" "1020" "700" "2100" "10"
           "310" "0.001" "0.02" "0" "1" w
    else w in
  let diagram_type := text w "diagram_type_input" in
  let w := update_axis_limits diagram_type w in
  mark_update_needed w.

End WithSignals.

End Frame.


(** ** The conversions on IEEE binary64

    The arithmetic of the Python [float], on Rocq's primitive floats: the
    same expressions, in the same association, with the literals rounded
    to the nearest double as Python's parser rounds them.  An [int]
    operand of a float operation is the float of the same value. *)

#[local] Set Warnings "-inexact-float".

Module PlotterF.

Local Open Scope float_scope.

Definition bar_to_Pa (p_bar : PrimFloat.float) : PrimFloat.float :=
  p_bar * 1e5.

Definition convert_temperature (unit_system : gmap string string)
    (T : PrimFloat.float) : result PrimFloat.float :=
  let* u := getitem unit_system "T" in
  if decide (u = "°C") then Ok (T - 273.15)
  else if decide (u = "°F") then Ok ((T - 273.15) * 9 / 5 + 32)
  else Ok T.

Definition convert_entropy (unit_system : gmap string string)
    (S : PrimFloat.float) : result PrimFloat.float :=
  let* u := getitem unit_system "s" in
  if decide (u = "kJ/kgK") then Ok (S / 1e3)
  else if decide (u = "MJ/kgK") then Ok (S / 1e6)
  else Ok S.

Definition convert_volume (unit_system : gmap string string)
    (v : PrimFloat.float) : result PrimFloat.float :=
  let* u := getitem unit_system "v" in
  if decide (u = "l/kg") then Ok (v * 1e3) else Ok v.

Definition convert_pressure (unit_system : gmap string string)
    (p_pa : PrimFloat.float) : result PrimFloat.float :=
  let* u := getitem unit_system "p" in
  if decide (u = "hPa") then Ok (p_pa / 1e2)
  else if decide (u = "mbar") then Ok (p_pa / 1e2)
  else if decide (u = "psi") then Ok (p_pa * 0.0001450377)
  else if decide (u = "kPa") then Ok (p_pa / 1e3)
  else if decide (u = "bar") then Ok (p_pa / 1e5)
  else if decide (u = "MPa") then Ok (p_pa / 1e6)
  else Ok p_pa.

Definition convert_enthalpy (unit_system : gmap string string)
    (h_jkg : PrimFloat.float) : result PrimFloat.float :=
  let* u := getitem unit_system "h" in
  if decide (u = "kJ/kg") then Ok (h_jkg / 1e3)
  else if decide (u = "MJ/kg") then Ok (h_jkg / 1e6)
  else Ok h_jkg.

End PlotterF.

Module FrameF.

Local Open Scope float_scope.

Definition convert_temperature (value : PrimFloat.float)
    (old_unit new_unit : string) : PrimFloat.float :=
  if decide (old_unit = new_unit) then value
  else if decide (old_unit = "K") then
    if decide (new_unit = "°C") then value - 273.15
    else if decide (new_unit = "°F") then (value - 273.15) * 9 / 5 + 32
    else value
  else if decide (old_unit = "°C") then
    if decide (new_unit = "K") then value + 273.15
    else if decide (new_unit = "°F") then value * 9 / 5 + 32
    else value
  else if decide (old_unit = "°F") then
    if decide (new_unit = "K") then (value - 32) * 5 / 9 + 273.15
    else if decide (new_unit = "°C") then (value - 32) * 5 / 9
    else value
  else value.

Definition pressure_factors : gmap string PrimFloat.float :=
  {[ "Pa" := 1; "hPa" := 100; "kPa" := 1000; "mbar" := 100;
     "bar" := 100000; "psi" := 6894.76; "MPa" := 1e6 ]}.

Definition entropy_factors : gmap string PrimFloat.float :=
  {[ "J/kgK" := 1; "kJ/kgK" := 1000; "MJ/kgK" := 1e6 ]}.

Definition enthalpy_factors : gmap string PrimFloat.float :=
  {[ "J/kg" := 1; "kJ/kg" := 1000; "MJ/kg" := 1e6 ]}.

Definition volume_factors : gmap string PrimFloat.float :=
  {[ "m^3/kg" := 1; "l/kg" := 0.001 ]}.

(** [value * conversion_factors[old_unit] / conversion_factors[new_unit]] *)
Definition convert_by (conversion_factors : gmap string PrimFloat.float)
    (value : PrimFloat.float) (old_unit new_unit : string)
  : result PrimFloat.float :=
  let* f_old := getitem conversion_factors old_unit in
  let* f_new := getitem conversion_factors new_unit in
  Ok (value * f_old / f_new).

Definition convert_pressure := convert_by pressure_factors.
Definition convert_entropy := convert_by entropy_factors.
Definition convert_enthalpy := convert_by enthalpy_factors.
Definition convert_volume := convert_by volume_factors.

End FrameF.
(** ** Vocabulary of the statements *)

Module Spec.

Local Open Scope Q_scope.

Import Plotter.

(** A unit that a factor table knows, with a non-zero factor. *)
Definition has_factor (m : gmap string Q) (u : string) : Prop :=
  exists f, m !! u = Some f /\ ~ f == 0.

(** The converted quantity behind each unit-system key: [convert_units]
    computes [Ta] from [unit_system['T']], [Sa] from ['s'], and so on. *)
Definition quantity (c : converted) (key : string) : option Q :=
  if decide (key = "T") then Some (Ta c)
  else if decide (key = "s") then Some (Sa c)
  else if decide (key = "v") then Some (va c)
  else if decide (key = "p") then Some (pa c)
  else if decide (key = "h") then Some (ha c)
  else None.

(** A unit system that names each quantity by its own key, so that
    [get_axis_units] on it tells which quantity each axis carries. *)
Definition key_units : gmap string string :=
  {[ "p" := "p"; "T" := "T"; "s" := "s"; "h" := "h"; "v" := "v";
     "Q" := "Q" ]}.

(** The quantities on the x axis and on the y axis of a diagram. *)
Definition axis_quantities (diagram_type : string) (c : converted)
  : option (Q * Q) :=
  match Frame.get_axis_units diagram_type key_units with
  | Ok (Some kx, Some ky) =>
      match quantity c kx, quantity c ky with
      | Some x, Some y => Some (x, y)
      | _, _ => None
      end
  | _ => None
  end.

(** Where [plot_fluid_states] puts the marker of a lone sample. *)
Definition marker_position (st : state) : option (Q * Q) :=
  match plot_points [("1", [st])] ∅ with
  | Marker x y _ _ :: _ => Some (x, y)
  | _ => None
  end.

(** The three-way lookup in the words of the specification. *)
Definition three_way_style (line_type : string) : option line_style :=
  if decide (line_type = "isentropic")
  then connection_line_styles !! "isentropic"
  else if decide (line_type = "non-isentropic")
  then connection_line_styles !! "non-isentropic"
  else connection_line_styles !! "default".

(** The line that a connection draws between two resolved samples. *)
Definition line_between (start_state end_state : state)
    (style : line_style) : artist :=
  Line (snd start_state) (snd end_state) (fst start_state)
    (fst end_state) style.

(** What [plot_connections] draws for one connection. *)
Definition drawn_for (states : states_map) (c : connection)
    (line : artist) : Prop :=
  let '(start, end_, line_type) := c in
  exists start_state end_state style,
    next (matching_states states start) = Ok start_state /\
    next (matching_states states end_) = Ok end_state /\
    three_way_style line_type = Some style /\
    line = line_between start_state end_state style.

Definition is_substring (sub s : string) : Prop :=
  exists pre post, s = pre +:+ sub +:+ post.

Definition endpoints (c : connection) : list string :=
  let '(start, end_, _) := c in [start; end_].

(** Some point name contains [name]. *)
Definition named_in (states : states_map) (name : string) : Prop :=
  exists point point_states,
    (point, point_states) ∈ states /\ is_substring name point.

(** Some point that has samples carries a name that contains [name]. *)
Definition sampled_in (states : states_map) (name : string) : Prop :=
  exists point point_states,
    (point, point_states) ∈ states /\ is_substring name point /\
    point_states <> [].

(** The first point, in iteration order, whose name contains [name]. *)
Definition first_named (states : states_map) (name : string)
  : option (string * list state) :=
  find (fun '(point, _) => contains name point) states.

(** The first such point among those that have at least one sample. *)
Definition first_sampled (states : states_map) (name : string)
  : option (string * list state) :=
  find (fun '(point, point_states) =>
          contains name point && negb (Nat.eqb (length point_states) 0))
       states.

(** Every point of the mapping has exactly [n] samples. *)
Definition uniform (n : nat) (m : states_map) : Prop :=
  Forall (fun point => length (snd point) = n) m.

(** The markers of one point: sample [i] of [n] at abscissa [h] and
    ordinate [p]. *)
Definition markers_of (point_states : list state) : list artist :=
  imap (fun i st => Marker (snd st) (fst st) i (length point_states))
    point_states.

(** The markers of the samples from index [i] on, out of [n]. *)
Definition markers_from (n i : nat) (point_states : list state)
  : list artist :=
  imap (fun j st => Marker (snd st) (fst st) (i + j) n) point_states.

(** The style that [get_isoline_data] hands to the diagram library:
    the line width is 1 where the style has none. *)
Definition restyle (st : line_style) : line_style :=
  LineStyle (color st) (linestyle st) (Some (default 1 (linewidth st))).

(** The label of one point, at its first sample. *)
Definition label_of (point : string * list state) : list artist :=
  match snd point with
  | [] => []
  | st :: _ => [Annotate (fst point) (snd st) (fst st)]
  end.

Definition is_marker (a : artist) : bool :=
  match a with
  | Marker _ _ _ _ => true
  | _ => false
  end.

Definition is_label (a : artist) : bool :=
  match a with
  | Annotate _ _ _ => true
  | _ => false
  end.

(** A line whose two ends sit on first-sample markers of [arts]. *)
Definition joins_first_markers (arts : list artist) (line : artist)
  : Prop :=
  match line with
  | Line x0 x1 y0 y1 _ =>
      (exists n, Marker x0 y0 0 n ∈ arts) /\
      (exists n, Marker x1 y1 0 n ∈ arts)
  | _ => False
  end.

(** The prefix of the isoline widgets of a quantity. *)
Definition isoline_prefix (key : string) : string :=
  if decide (key = "T") then "t"
  else if decide (key = "Q") then "q"
  else key.

(** A unit system whose five plotted quantities carry units that the
    form offers. *)
Definition offered (units : gmap string string) : Prop :=
  forall key,
    key ∈ ["p"; "T"; "s"; "h"; "v"] ->
    exists u, units !! key = Some u /\ u ∈ Units.supported key.

(** Equality of samples and of limits up to the value of the
    rationals. *)
Definition state_eq (a b : state) : Prop :=
  fst a == fst b /\ snd a == snd b.

Definition limits_eq (a b : axis_limits) : Prop :=
  x_min a == x_min b /\ x_max a == x_max b /\
  y_min a == y_min b /\ y_max a == y_max b.

End Spec.


(** ** A concrete environment for the examples *)

Module Sample.

Local Open Scope Q_scope.

Import Plotter Frame.

(** A stub equation of state: 300 K, 1500 J/kgK and 50 kg/m^3 at every
    state. *)
Definition stub_PropsSI (output : string) (p_pa h_jkg : Q)
    (fluid : string) : result Q :=
  if decide (output = "T") then Ok 300
  else if decide (output = "S") then Ok 1500
  else Ok 50.

Definition stub_ext : collaborators :=
  Collaborators stub_PropsSI (fun _ _ _ => Ok tt) (fun _ _ _ => Ok tt).

(** [float] and [int] on the texts that the examples use. *)
Definition float_table : gmap string Q :=
  {[ "0" := 0; "1" := 1; "10" := 10; "20" := 20; "310" := 310;
     "700" := 700; "1020" := 1020; "2100" := 2100; "0.001" := 0.001;
     "0.02" := 0.02; "2.5" := 2.5; "1.0" := 1 ]}.

Definition stub_float (s : string) : result Q :=
  match float_table !! s with
  | Some q => Ok q
  | None =>
      Raise (ValueError ("could not convert string to float: '"
                         +:+ s +:+ "'"))
  end.

Definition stub_int (s : string) : result Z :=
  if decide (s = "0") then Ok 0%Z
  else if decide (s = "2") then Ok 2%Z
  else Raise (ValueError ("invalid literal for int() with base 10: '"
                          +:+ s +:+ "'")).

(** [np.linspace] and [np.geomspace] for at most two samples. *)
Definition stub_space (start stop : Q) (num : Z) : result (list Q) :=
  if decide (num = 0%Z) then Ok []
  else if decide (num = 1%Z) then Ok [start]
  else if decide (num = 2%Z) then Ok [start; stop]
  else Raise (ValueError "sample count outside the stub").

Definition states_file : states_map :=
  [("1", [(50, 400); (52, 405)]); ("2", [(80, 450); (82, 455)])].

Definition connections_file : list connection :=
  [("1", "2", "isentropic")].

Definition stub_load {A} (name : string) (content : A) (path : string)
  : result A :=
  if decide (path = name) then Ok content
  else Raise (OSError ("No such file or directory: '" +:+ path +:+ "'")).

Definition env : environment :=
  Environment stub_ext (stub_load "states.json" states_file)
    (stub_load "connections.json" connections_file)
    stub_float stub_int stub_space stub_space (fun _ => Ok tt).

(** The form as [MainWindow.__init__] leaves it: fluid CO2, a T-s
    diagram, the first item of every combo box. *)
Definition initial_texts : gmap string string :=
  list_to_map
    [("fluid_input", "CO2");
     ("unit_system_p", "bar"); ("unit_system_T", "°C");
     ("unit_system_s", "J/kgK"); ("unit_system_h", "kJ/kg");
     ("unit_system_v", "m^3/kg"); ("unit_system_Q", "-");
     ("diagram_type_input", "Ts");
     ("xmin_input", "700"); ("xmax_input", "2100");
     ("ymin_input", "10"); ("ymax_input", "310");
     ("q_start_input", "0"); ("q_end_input", "1");
     ("q_points_input", "2"); ("q_color_input", "blue");
     ("q_style_input", "-"); ("q_linewidth_input", "2.5");
     ("t_start_input", "10"); ("t_end_input", "310");
     ("t_points_input", "0"); ("t_color_input", "blue");
     ("t_style_input", "-"); ("t_linewidth_input", "1.0");
     ("p_start_input", "20"); ("p_end_input", "1020");
     ("p_points_input", "0"); ("p_color_input", "blue");
     ("p_style_input", "-"); ("p_linewidth_input", "1.0");
     ("v_start_input", "0.001"); ("v_end_input", "0.02");
     ("v_points_input", "0"); ("v_color_input", "blue");
     ("v_style_input", "-"); ("v_linewidth_input", "1.0");
     ("s_start_input", "700"); ("s_end_input", "2100");
     ("s_points_input", "0"); ("s_color_input", "blue");
     ("s_style_input", "-"); ("s_linewidth_input", "1.0");
     ("h_start_input", "0"); ("h_end_input", "700");
     ("h_points_input", "0"); ("h_color_input", "blue");
     ("h_style_input", "-"); ("h_linewidth_input", "1.0");
     ("fluid_states_input", ""); ("connections_input", "")].

(** Both files were chosen and plotted; the user has since emptied the
    fluid-states path, which marked the button red. *)
Definition stale_window : window :=
  Window
    (<["connections_input" := "connections.json"]> initial_texts)
    false needs_update_style (Some states_file) (Some connections_file)
    None None None [] 0.

(** Both paths are filled in, but the plot limits are not numbers. *)
Definition malformed_window : window :=
  Window
    (<["xmin_input" := "abc"]>
       (<["fluid_states_input" := "states.json"]>
          (<["connections_input" := "connections.json"]> initial_texts)))
    false needs_update_style None None None None None [] 0.

End Sample.

(** * Properties *)

(** ** Python helpers *)

Section PyFacts.

Lemma bind_Ok {A B} (r : result A) (k : A -> result B) (b : B) :
  Py.bind r k = Ok b -> exists a, r = Ok a /\ k a = Ok b.
Proof. destruct r as [a|e]; simpl; [eauto | discriminate]. Qed.

Lemma bind_Raise {A B} (r : result A) (k : A -> result B) (e : exn) :
  Py.bind r k = Raise e ->
  r = Raise e \/ exists a, r = Ok a /\ k a = Raise e.
Proof. destruct r as [a|e']; simpl; [eauto | intros [= ->]; auto]. Qed.

Lemma getitem_Some {V} (d : gmap string V) (key : string) (v : V) :
  d !! key = Some v -> getitem d key = Ok v.
Proof. unfold getitem. intros ->. reflexivity. Qed.

Lemma prefix_spec (sub s : string) :
  String.prefix sub s = true <-> exists post, s = sub +:+ post.
Proof.
  revert s. induction sub as [|a sub IH]; intros s; simpl.
  - split; [intros _; exists s; reflexivity | destruct s; reflexivity].
  - destruct s as [|b s].
    + split; [discriminate | intros [post [=]]].
    + simpl. destruct (Ascii.ascii_dec a b) as [->|Hne].
      * rewrite IH. split; intros [post Hp]; exists post.
        -- rewrite Hp. reflexivity.
        -- change (String b s = String b (sub +:+ post)) in Hp.
           injection Hp as ->. reflexivity.
      * split; [discriminate | intros [post Hp]].
        change (String b s = String a (sub +:+ post)) in Hp.
        injection Hp as -> _. contradiction.
Qed.

(** [contains] is substring containment. *)
Lemma contains_spec (sub s : string) :
  contains sub s = true <-> exists pre post, s = pre +:+ sub +:+ post.
Proof.
  induction s as [|b s IH].
  - change (contains sub "") with (String.prefix sub "" || false).
    rewrite orb_false_r, prefix_spec. split.
    + intros [post Hp]. exists "", post. exact Hp.
    + intros [pre [post Hp]]. destruct pre; [eauto | discriminate].
  - change (contains sub (String b s))
      with (String.prefix sub (String b s) || contains sub s).
    rewrite orb_true_iff, prefix_spec, IH. split.
    + intros [[post Hp] | [pre [post Hp]]].
      * exists "", post. exact Hp.
      * exists (String b pre), post. rewrite Hp. reflexivity.
    + intros [pre [post Hp]]. destruct pre as [|c pre].
      * left. eauto.
      * right. exists pre, post.
        change (String b s = String c (pre +:+ sub +:+ post)) in Hp.
        injection Hp as _ ->. reflexivity.
Qed.

End PyFacts.

(** Membership in a literal list, one case per element. *)
Ltac cases_of H := set_unfold in H; destruct_or?; subst.

(** A closed decidable proposition, by evaluation. *)
Ltac decide_closed := apply (bool_decide_unpack _); vm_compute; exact I.

(** ** Unit conversion (Frame.py) *)

Section Conversion.

Local Open Scope Q_scope.

Import Frame Spec.

Lemma convert_by_round_trip (m : gmap string Q) (v : Q) (u1 u2 : string) :
  has_factor m u1 -> has_factor m u2 ->
  exists v1 v2,
    convert_by m v u1 u2 = Ok v1 /\ convert_by m v1 u2 u1 = Ok v2 /\
    v2 == v.
Proof.
  intros (f1 & H1 & N1) (f2 & H2 & N2).
  exists (v * f1 / f2), (v * f1 / f2 * f2 / f1). unfold convert_by.
  rewrite !(getitem_Some _ _ _ H1), !(getitem_Some _ _ _ H2). simpl.
  split; [reflexivity|]. split; [reflexivity|]. field. auto.
Qed.

Ltac factor_cases H :=
  unfold Units.pressure, Units.entropy, Units.enthalpy, Units.volume in H;
  cases_of H; eexists; (split; [vm_compute; reflexivity | discriminate]).

Lemma pressure_has_factor u :
  u ∈ Units.pressure -> has_factor pressure_factors u.
Proof. intros H. factor_cases H. Qed.

Lemma entropy_has_factor u :
  u ∈ Units.entropy -> has_factor entropy_factors u.
Proof. intros H. factor_cases H. Qed.

Lemma enthalpy_has_factor u :
  u ∈ Units.enthalpy -> has_factor enthalpy_factors u.
Proof. intros H. factor_cases H. Qed.

Lemma volume_has_factor u :
  u ∈ Units.volume -> has_factor volume_factors u.
Proof. intros H. factor_cases H. Qed.

Ltac temperature_cases :=
  unfold convert_temperature; repeat case_decide; simplify_eq;
  try reflexivity; try field.

Lemma convert_temperature_round_trip (v : Q) (a b : string) :
  a ∈ Units.temperature -> b ∈ Units.temperature ->
  convert_temperature (convert_temperature v a b) b a == v.
Proof.
  intros Ha Hb. unfold Units.temperature in *.
  cases_of Ha; cases_of Hb; temperature_cases.
Qed.

(** C2. For each of the six quantity kinds and every ordered pair of
    its supported units, converting a value from the first unit to the
    second and back succeeds and returns the original value.  Floats
    are exact rationals here, so "within floating-point tolerance"
    reads as equality; the vapor-fraction values are passed to no
    conversion and are returned as they are. *)
Theorem convert_field_round_trip (kind u1 u2 : string) (v : Q) :
  kind ∈ Units.kinds ->
  u1 ∈ Units.supported kind -> u2 ∈ Units.supported kind ->
  exists v1 v2,
    convert_field v u1 u2 kind = Ok v1 /\
    convert_field v1 u2 u1 kind = Ok v2 /\
    v2 == v.
Proof.
  intros Hk H1 H2. unfold Units.kinds in Hk. cases_of Hk;
    unfold convert_field; simpl in *.
  - apply convert_by_round_trip; auto using pressure_has_factor.
  - eexists _, _. split; [reflexivity|]. split; [reflexivity|].
    apply convert_temperature_round_trip; assumption.
  - apply convert_by_round_trip; auto using entropy_has_factor.
  - apply convert_by_round_trip; auto using enthalpy_has_factor.
  - apply convert_by_round_trip; auto using volume_has_factor.
  - exists v, v. repeat split; reflexivity.
Qed.

Lemma convert_field_round_trip_witness :
  exists v1 v2,
    convert_field 1.5 "bar" "psi" "p" = Ok v1 /\
    convert_field v1 "psi" "bar" "p" = Ok v2 /\
    v2 == 1.5.
Proof.
  apply (convert_field_round_trip "p" "bar" "psi" 1.5); decide_closed.
Defined.

(** The slope and the offset of each temperature conversion. *)
Lemma convert_temperature_affine (a b : string) :
  a ∈ Units.temperature -> b ∈ Units.temperature ->
  exists m c, 0 < m /\ forall v, convert_temperature v a b == m * v + c.
Proof.
  intros Ha Hb. unfold Units.temperature in *.
  cases_of Ha; cases_of Hb.
  - exists 1, 0. split; [reflexivity|]. intros v. temperature_cases.
  - exists 1, 273.15. split; [reflexivity|]. intros v. temperature_cases.
  - exists (9 / 5), 32. split; [reflexivity|]. intros v. temperature_cases.
  - exists 1, (- 273.15). split; [reflexivity|]. intros v.
    temperature_cases.
  - exists 1, 0. split; [reflexivity|]. intros v. temperature_cases.
  - exists (9 / 5), (32 - 273.15 * 9 / 5). split; [reflexivity|].
    intros v. temperature_cases.
  - exists (5 / 9), (- (32 * 5 / 9)). split; [reflexivity|]. intros v.
    temperature_cases.
  - exists (5 / 9), (273.15 - 32 * 5 / 9). split; [reflexivity|].
    intros v. temperature_cases.
  - exists 1, 0. split; [reflexivity|]. intros v. temperature_cases.
Qed.

Lemma convert_temperature_compose (a b c : string) (v : Q) :
  a ∈ Units.temperature -> b ∈ Units.temperature ->
  c ∈ Units.temperature ->
  convert_temperature (convert_temperature v a b) b c
  == convert_temperature v a c.
Proof.
  intros Ha Hb Hc. unfold Units.temperature in *.
  cases_of Ha; cases_of Hb; cases_of Hc; temperature_cases.
Qed.

(** The plotter converts from kelvin as the form does. *)
Lemma plotter_convert_temperature (us : gmap string string) (u : string)
    (T : Q) :
  us !! "T" = Some u ->
  Plotter.convert_temperature us T = Ok (convert_temperature T "K" u).
Proof.
  intros Hu. unfold Plotter.convert_temperature, convert_temperature.
  rewrite (getitem_Some _ _ _ Hu). simpl.
  repeat case_decide; simplify_eq; reflexivity.
Qed.

(** The plotter converts from kelvin as the form does, on binary64
    too: the two apply the same operations to the same operands. *)
Lemma plotter_convert_temperature_float (us : gmap string string)
    (u : string) (T : PrimFloat.float) :
  us !! "T" = Some u ->
  PlotterF.convert_temperature us T
  = Ok (FrameF.convert_temperature T "K" u).
Proof.
  intros Hu.
  unfold PlotterF.convert_temperature, FrameF.convert_temperature.
  rewrite (getitem_Some _ _ _ Hu). simpl.
  repeat case_decide; simplify_eq; reflexivity.
Qed.

(** C3, as the code has it.  Temperature conversion is affine for every
    ordered pair of K, °C and °F, and the conversions are consistent up
    to rounding: in exact arithmetic, converting through an
    intermediate unit equals converting directly.  Converting a unit to
    itself is the identity, and the plotter's conversion from kelvin is
    the form's, in exact arithmetic and on binary64 alike. *)
Theorem convert_temperature_affine_consistent :
  (forall a b, a ∈ Units.temperature -> b ∈ Units.temperature ->
     exists m c, 0 < m /\
       forall v, convert_temperature v a b == m * v + c) /\
  (forall a b c v,
     a ∈ Units.temperature -> b ∈ Units.temperature ->
     c ∈ Units.temperature ->
     convert_temperature (convert_temperature v a b) b c
     == convert_temperature v a c) /\
  (forall a v, convert_temperature v a a = v) /\
  (forall (us : gmap string string) u T,
     us !! "T" = Some u ->
     Plotter.convert_temperature us T
     = Ok (convert_temperature T "K" u)) /\
  (forall a (v : PrimFloat.float), FrameF.convert_temperature v a a = v) /\
  (forall (us : gmap string string) u (T : PrimFloat.float),
     us !! "T" = Some u ->
     PlotterF.convert_temperature us T
     = Ok (FrameF.convert_temperature T "K" u)).
Proof.
  split; [exact convert_temperature_affine|].
  split; [intros; apply convert_temperature_compose; assumption|].
  split; [|split; [exact plotter_convert_temperature|]].
  - intros a v. unfold convert_temperature. case_decide; congruence.
  - split; [|exact plotter_convert_temperature_float].
    intros a v. unfold FrameF.convert_temperature.
    case_decide; congruence.
Qed.

Lemma convert_temperature_affine_consistent_witness :
  (exists m c, 0 < m /\
     forall v, convert_temperature v "°F" "K" == m * v + c) /\
  convert_temperature (convert_temperature 100 "°F" "K") "K" "°C"
  == convert_temperature 100 "°F" "°C" /\
  Plotter.convert_temperature Plotter.default_unit_system 300
  = Ok (convert_temperature 300 "K" "°C") /\
  PlotterF.convert_temperature Plotter.default_unit_system 300%float
  = Ok (FrameF.convert_temperature 300%float "K" "°C").
Proof.
  destruct convert_temperature_affine_consistent
    as (Haff & Hc & _ & Hp & _ & Hpf).
  split; [apply Haff; decide_closed|].
  split; [apply Hc; decide_closed|].
  split; [apply Hp; vm_compute; reflexivity|].
  apply Hpf. vm_compute. reflexivity.
Defined.

(** C3, as the claim has it, fails on binary64: 100.0 °F taken to
    kelvin and from there to °C is 37.77777777777777, and taken to °C
    directly it is 37.77777777777778. *)
Lemma convert_temperature_float_counterexample :
  FrameF.convert_temperature
    (FrameF.convert_temperature 100%float "°F" "K") "K" "°C"
  = 37.77777777777777%float /\
  FrameF.convert_temperature 100%float "°F" "°C"
  = 37.77777777777778%float /\
  PrimFloat.eqb
    (FrameF.convert_temperature
       (FrameF.convert_temperature 100%float "°F" "K") "K" "°C")
    (FrameF.convert_temperature 100%float "°F" "°C")
  = false.
Proof. repeat split; vm_compute; reflexivity. Qed.

End Conversion.

(** ** Diagram types and axes *)

Section Axes.

Local Open Scope Q_scope.

Import Plotter Frame Spec.

(** C8. On a unit system that has the keys of the five plotted
    quantities, [get_axis_units] returns the units of (s, T) for 'Ts',
    (s, h) for 'hs', (h, p) for 'logph', (h, T) for 'Th' and (v, p) for
    'plogv'; for every other diagram type it returns (None, None). *)
Theorem get_axis_units_by_diagram_type (units : gmap string string)
    (up uT us uh uv : string) :
  units !! "p" = Some up -> units !! "T" = Some uT ->
  units !! "s" = Some us -> units !! "h" = Some uh ->
  units !! "v" = Some uv ->
  get_axis_units "Ts" units = Ok (Some us, Some uT) /\
  get_axis_units "hs" units = Ok (Some us, Some uh) /\
  get_axis_units "logph" units = Ok (Some uh, Some up) /\
  get_axis_units "Th" units = Ok (Some uh, Some uT) /\
  get_axis_units "plogv" units = Ok (Some uv, Some up) /\
  forall diagram_type,
    diagram_type ∉ Units.diagram_types ->
    get_axis_units diagram_type units = Ok (None, None).
Proof.
  intros Hp HT Hs Hh Hv.
  repeat split;
    try (unfold get_axis_units; simpl;
         rewrite ?(getitem_Some _ _ _ Hp), ?(getitem_Some _ _ _ HT),
           ?(getitem_Some _ _ _ Hs), ?(getitem_Some _ _ _ Hh),
           ?(getitem_Some _ _ _ Hv); reflexivity).
  intros dt Hdt. unfold Units.diagram_types in Hdt.
  unfold get_axis_units. repeat case_decide; subst; try reflexivity;
    exfalso; apply Hdt; set_solver.
Qed.

Lemma get_axis_units_by_diagram_type_witness :
  get_axis_units "Ts" default_unit_system = Ok (Some "J/kgK", Some "°C") /\
  get_axis_units "hs" default_unit_system
  = Ok (Some "J/kgK", Some "J/kg") /\
  get_axis_units "logph" default_unit_system
  = Ok (Some "J/kg", Some "Pa") /\
  get_axis_units "Th" default_unit_system = Ok (Some "J/kg", Some "°C") /\
  get_axis_units "plogv" default_unit_system
  = Ok (Some "m^3/kg", Some "Pa") /\
  forall diagram_type,
    diagram_type ∉ Units.diagram_types ->
    get_axis_units diagram_type default_unit_system = Ok (None, None).
Proof.
  apply (get_axis_units_by_diagram_type default_unit_system
           "Pa" "°C" "J/kgK" "J/kg" "m^3/kg");
    vm_compute; reflexivity.
Defined.

(** C4. [format_converted_state] raises [ValueError], with a message
    that names the type, for every diagram type other than 'Ts', 'hs',
    'logph', 'Th' and 'plogv', and returns normally for these five. *)
Theorem format_converted_state_unsupported (diagram_type : string)
    (Ta Sa va pa ha : Q) :
  (diagram_type ∉ Units.diagram_types ->
   format_converted_state diagram_type Ta Sa va pa ha
   = Raise (ValueError ("Unsupported diagram type: " +:+ diagram_type)))
  /\
  (diagram_type ∈ Units.diagram_types ->
   exists st, format_converted_state diagram_type Ta Sa va pa ha = Ok st).
Proof.
  unfold Units.diagram_types, format_converted_state. split; intros H.
  - repeat case_decide; subst; try reflexivity; exfalso; apply H;
      set_solver.
  - cases_of H; eexists; reflexivity.
Qed.

Lemma format_converted_state_unsupported_witness :
  format_converted_state "pT" 300 1500 0.02 50 400
  = Raise (ValueError "Unsupported diagram type: pT") /\
  exists st, format_converted_state "Th" 300 1500 0.02 50 400 = Ok st.
Proof.
  split.
  - apply (format_converted_state_unsupported "pT" 300 1500 0.02 50 400).
    decide_closed.
  - apply (format_converted_state_unsupported "Th" 300 1500 0.02 50 400).
    decide_closed.
Defined.

(** A sample [(p, h)] is drawn at abscissa [h] and ordinate [p]. *)
Lemma marker_position_swaps (st : state) :
  marker_position st = Some (snd st, fst st).
Proof. destruct st as [p h]. reflexivity. Qed.

(** C1. For 'Ts', 'hs', 'logph' and 'Th' the tuple returned by
    [format_converted_state] is (ordinate, abscissa), so that the marker
    lands on the quantities of the two axes; for 'plogv' the tuple is
    (abscissa, ordinate), and the marker lands at (pa, va) on axes that
    carry (va, pa). *)
Theorem format_converted_state_axes (c : converted) :
  (format_converted_state "Ts" (Ta c) (Sa c) (va c) (pa c) (ha c)
   = Ok (Ta c, Sa c) /\
   marker_position (Ta c, Sa c) = axis_quantities "Ts" c) /\
  (format_converted_state "hs" (Ta c) (Sa c) (va c) (pa c) (ha c)
   = Ok (ha c, Sa c) /\
   marker_position (ha c, Sa c) = axis_quantities "hs" c) /\
  (format_converted_state "logph" (Ta c) (Sa c) (va c) (pa c) (ha c)
   = Ok (pa c, ha c) /\
   marker_position (pa c, ha c) = axis_quantities "logph" c) /\
  (format_converted_state "Th" (Ta c) (Sa c) (va c) (pa c) (ha c)
   = Ok (Ta c, ha c) /\
   marker_position (Ta c, ha c) = axis_quantities "Th" c) /\
  (format_converted_state "plogv" (Ta c) (Sa c) (va c) (pa c) (ha c)
   = Ok (va c, pa c) /\
   marker_position (va c, pa c) = Some (pa c, va c) /\
   axis_quantities "plogv" c = Some (va c, pa c)).
Proof. repeat split; vm_compute; reflexivity. Qed.

(** At 0.02 m^3/kg and 50 bar the 'plogv' marker is drawn at abscissa 50
    and ordinate 0.02, on a diagram whose abscissa is the volume. *)
Example plogv_marker_off_axes :
  let c := Converted 300 1500 0.02 50 400 in
  exists st,
    format_converted_state "plogv" (Ta c) (Sa c) (va c) (pa c) (ha c)
    = Ok st /\
    marker_position st = Some (50, 0.02) /\
    axis_quantities "plogv" c = Some (0.02, 50) /\
    marker_position st <> axis_quantities "plogv" c.
Proof.
  eexists. split; [reflexivity|]. split; [reflexivity|].
  split; [reflexivity|]. vm_compute. discriminate.
Qed.

End Axes.

(** ** Connections and the colour bar (Plotter.py) *)

Section Plotting.

Local Open Scope Q_scope.

Import Plotter Spec.

Lemma filter_const {A} (P : Prop) `{Decision P} (l : list A) :
  filter (fun _ => P) l = if decide P then l else [].
Proof.
  induction l as [|a l IH]; [destruct (decide P); reflexivity|].
  rewrite filter_cons, IH. destruct (decide P); reflexivity.
Qed.

Lemma matching_states_cons (point : string) (point_states : list state)
    (rest : states_map) (name : string) :
  matching_states ((point, point_states) :: rest) name
  = (if contains name point then point_states else [])
      ++ matching_states rest name.
Proof.
  unfold matching_states. simpl. rewrite filter_const.
  destruct (contains name point); case_decide; congruence.
Qed.

Lemma next_Raise {A} (l : list A) (e : exn) :
  next l = Raise e -> e = StopIteration.
Proof. destruct l; simpl; congruence. Qed.

(** The endpoint is the first sample of the first point that has
    samples and whose name contains the endpoint name. *)
Lemma next_matching_first_sampled (states : states_map) (name : string) :
  next (matching_states states name)
  = match first_sampled states name with
    | Some (_, st :: _) => Ok st
    | _ => Raise StopIteration
    end.
Proof.
  unfold first_sampled.
  induction states as [|[point point_states] rest IH]; [reflexivity|].
  rewrite matching_states_cons. simpl.
  destruct (contains name point); simpl; [|exact IH].
  destruct point_states as [|st l]; simpl; [exact IH | reflexivity].
Qed.

Lemma sampled_in_cons (point : string) (point_states : list state)
    (rest : states_map) (name : string) :
  sampled_in ((point, point_states) :: rest) name
  <-> (contains name point = true /\ point_states <> [])
      \/ sampled_in rest name.
Proof.
  unfold sampled_in. split.
  - intros (pt & sts & Hin & Hsub & Hne).
    apply elem_of_cons in Hin as [[= -> ->] | Hin].
    + left. split; [apply contains_spec; exact Hsub | exact Hne].
    + right. eauto.
  - intros [[Hc Hne] | (pt & sts & Hin & Hsub & Hne)].
    + exists point, point_states. split; [left|].
      split; [apply contains_spec; exact Hc | exact Hne].
    + exists pt, sts. split; [right; exact Hin | auto].
Qed.

Lemma next_matching_sampled (states : states_map) (name : string) :
  (exists st, next (matching_states states name) = Ok st)
  <-> sampled_in states name.
Proof.
  induction states as [|[point point_states] rest IH].
  - split; [intros [st [=]] | intros (pt & sts & Hin & _)].
    inversion Hin.
  - rewrite matching_states_cons, sampled_in_cons, <- IH.
    destruct (contains name point).
    + destruct point_states as [|st l]; simpl.
      * split; [auto | intros [[_ []] | H]; auto].
      * split; [intros _; left; split; [reflexivity | discriminate]|].
        intros _. eauto.
    + simpl. split; [auto | intros [[[=] _] | H]; exact H].
Qed.

Lemma next_matching_Raise (states : states_map) (name : string) (e : exn) :
  next (matching_states states name) = Raise e ->
  ~ sampled_in states name.
Proof.
  intros Hr Hs. apply next_matching_sampled in Hs as [st Hst]. congruence.
Qed.

Lemma default_style :
  getitem connection_line_styles "default"
  = Ok (LineStyle "gray" ":" (Some 2)).
Proof. reflexivity. Qed.

(** [line_styles.get(line_type, line_styles['default'])] is the
    three-way lookup. *)
Lemma get_three_way (line_type : string) :
  three_way_style line_type
  = Some (get connection_line_styles line_type
            (LineStyle "gray" ":" (Some 2))).
Proof.
  unfold three_way_style, get, connection_line_styles.
  repeat case_decide; subst; simplify_map_eq; try reflexivity.
  destruct (decide (line_type = "default")); subst; simplify_map_eq;
    reflexivity.
Qed.

Lemma plot_connections_cons (states : states_map) (start end_ lt : string)
    (rest : list connection) :
  plot_connections states ((start, end_, lt) :: rest)
  = let* start_state := next (matching_states states start) in
    let* end_state := next (matching_states states end_) in
    let* arts := plot_connections states rest in
    Ok (line_between start_state end_state
          (get connection_line_styles lt (LineStyle "gray" ":" (Some 2)))
        :: arts).
Proof.
  simpl. destruct (next (matching_states states start)); [|reflexivity].
  simpl. destruct (next (matching_states states end_)); reflexivity.
Qed.

Lemma plot_connections_drawn (states : states_map)
    (connections : list connection) (lines : list artist) :
  plot_connections states connections = Ok lines ->
  Forall2 (drawn_for states) connections lines.
Proof.
  revert lines.
  induction connections as [|[[start end_] lt] rest IH]; intros lines H.
  - injection H as <-. constructor.
  - rewrite plot_connections_cons in H.
    apply bind_Ok in H as (s & Hs & H).
    apply bind_Ok in H as (e & He & H).
    apply bind_Ok in H as (arts & Harts & H).
    injection H as <-. constructor; [|apply IH; exact Harts].
    exists s, e. eexists. split; [exact Hs|]. split; [exact He|].
    split; [apply get_three_way | reflexivity].
Qed.

(** C6. Every connection is drawn with the style that the three-way
    lookup gives for its line type: the isentropic style for
    'isentropic', the non-isentropic style for 'non-isentropic', and the
    default style for every other line type. *)
Theorem plot_connections_three_way (states : states_map)
    (connections : list connection) (lines : list artist) :
  plot_connections states connections = Ok lines ->
  Forall2 (drawn_for states) connections lines /\
  three_way_style "isentropic" = Some (LineStyle "green" "--" (Some 2)) /\
  three_way_style "non-isentropic" = Some (LineStyle "gray" "-" (Some 2)) /\
  forall line_type,
    line_type <> "isentropic" -> line_type <> "non-isentropic" ->
    three_way_style line_type = Some (LineStyle "gray" ":" (Some 2)).
Proof.
  intros H. split; [apply plot_connections_drawn; exact H|].
  split; [reflexivity|]. split; [reflexivity|].
  intros lt H1 H2. unfold three_way_style.
  rewrite !decide_False by assumption. reflexivity.
Qed.

Lemma plot_connections_three_way_witness :
  Forall2 (drawn_for Sample.states_file) Sample.connections_file
    [Line 400 450 50 80 (LineStyle "green" "--" (Some 2))] /\
  three_way_style "isentropic" = Some (LineStyle "green" "--" (Some 2)) /\
  three_way_style "non-isentropic" = Some (LineStyle "gray" "-" (Some 2)) /\
  forall line_type,
    line_type <> "isentropic" -> line_type <> "non-isentropic" ->
    three_way_style line_type = Some (LineStyle "gray" ":" (Some 2)).
Proof.
  apply (plot_connections_three_way Sample.states_file
           Sample.connections_file).
  reflexivity.
Defined.

Lemma plot_connections_Raise_iff (states : states_map)
    (connections : list connection) :
  (exists e, plot_connections states connections = Raise e)
  <-> exists c name,
        c ∈ connections /\ name ∈ endpoints c /\
        ~ sampled_in states name.
Proof.
  induction connections as [|[[start end_] lt] rest IH].
  - split; [intros [e [=]] | intros (c & name & Hc & _)]. inversion Hc.
  - rewrite plot_connections_cons.
    destruct (next (matching_states states start)) as [s|e1] eqn:Hs.
    2:{ split; [intros _ | intros _; eexists; reflexivity].
        exists (start, end_, lt), start.
        split; [left|]. split; [left|].
        eapply next_matching_Raise; exact Hs. }
    destruct (next (matching_states states end_)) as [e|e2] eqn:He.
    2:{ split; [intros _ | intros _; eexists; reflexivity].
        exists (start, end_, lt), end_.
        split; [left|]. split; [right; left|].
        eapply next_matching_Raise; exact He. }
    simpl. destruct (plot_connections states rest) as [arts|e3]; simpl.
    + split; [intros [e' [=]]|]. intros (c & name & Hc & Hn & Hns).
      apply elem_of_cons in Hc as [-> | Hc].
      * exfalso. apply Hns, next_matching_sampled. simpl in Hn.
        apply elem_of_cons in Hn as [-> | Hn]; [eauto|].
        apply elem_of_cons in Hn as [-> | Hn]; [eauto | inversion Hn].
      * destruct IH as [_ IH]. destruct IH as [e' [=]]. eauto.
    + split; [intros _ | intros _; eexists; reflexivity].
      destruct IH as [IH _].
      destruct IH as (c & name & Hc & Hn & Hns); [eauto|].
      exists c, name. split; [right; exact Hc | auto].
Qed.

Lemma plot_connections_StopIteration (states : states_map)
    (connections : list connection) (e : exn) :
  plot_connections states connections = Raise e -> e = StopIteration.
Proof.
  induction connections as [|[[start end_] lt] rest IH];
    [discriminate|]. rewrite plot_connections_cons. intros H.
  apply bind_Raise in H as [H | (s & _ & H)];
    [eapply next_Raise; exact H|].
  apply bind_Raise in H as [H | (e' & _ & H)];
    [eapply next_Raise; exact H|].
  apply bind_Raise in H as [H | (arts & _ & [=])]. auto.
Qed.

Lemma first_sampled_first_named (states : states_map) (name : string) :
  Forall (fun point => snd point <> []) states ->
  first_sampled states name = first_named states name.
Proof.
  unfold first_sampled, first_named.
  induction 1 as [|[point point_states] rest Hne _ IH]; [reflexivity|].
  simpl in *. destruct point_states; [contradiction|]. simpl.
  rewrite andb_true_r, IH. reflexivity.
Qed.

(** C9, as the code has it.  An endpoint name is resolved by substring
    containment to the first sample of the first point that has at
    least one sample and whose name contains it; [plot_connections]
    raises exactly when some endpoint name is contained in the name of
    no point that has a sample, and what it raises is [StopIteration].
    Where every point has a sample, that point is the first point whose
    name contains the endpoint name. *)
Theorem plot_connections_resolution (states : states_map) :
  (forall name,
     next (matching_states states name)
     = match first_sampled states name with
       | Some (_, st :: _) => Ok st
       | _ => Raise StopIteration
       end) /\
  (forall name,
     (exists st, next (matching_states states name) = Ok st)
     <-> sampled_in states name) /\
  (forall connections,
     (exists e, plot_connections states connections = Raise e)
     <-> exists c name,
           c ∈ connections /\ name ∈ endpoints c /\
           ~ sampled_in states name) /\
  (forall connections e,
     plot_connections states connections = Raise e ->
     e = StopIteration) /\
  (Forall (fun point => snd point <> []) states ->
   forall name, first_sampled states name = first_named states name).
Proof.
  split; [exact (next_matching_first_sampled states)|].
  split; [exact (next_matching_sampled states)|].
  split; [exact (plot_connections_Raise_iff states)|].
  split; [exact (plot_connections_StopIteration states)|].
  intros H name. apply first_sampled_first_named. exact H.
Qed.

Lemma plot_connections_resolution_witness :
  next (matching_states Sample.states_file "2") = Ok (80, 450) /\
  sampled_in Sample.states_file "2" /\
  (exists e,
     plot_connections Sample.states_file [("1", "3", "isentropic")]
     = Raise e) /\
  first_sampled Sample.states_file "2"
  = first_named Sample.states_file "2".
Proof.
  destruct (plot_connections_resolution Sample.states_file)
    as (Hfirst & Hsampled & Hraise & _ & Hnamed).
  split; [rewrite Hfirst; reflexivity|].
  split; [apply Hsampled; eexists; reflexivity|].
  split.
  - apply Hraise. exists ("1", "3", "isentropic"), "3".
    split; [left|]. split; [right; left|].
    intros Hs. apply Hsampled in Hs as [st Hst]. discriminate Hst.
  - apply Hnamed. repeat constructor; discriminate.
Defined.

(** C9, as the claim has it, fails on a point without samples.  With
    the single point "1" and no sample, every endpoint name of the
    connection is contained in a point name and [plot_connections]
    raises all the same; with a second point "12" that has a sample,
    the endpoint "1" is resolved to the sample of "12", although the
    first point whose name contains "1" is the point "1". *)
Lemma plot_connections_named_counterexample :
  let states : states_map := [("1", [])] in
  let connections : list connection := [("1", "1", "isentropic")] in
  plot_connections states connections = Raise StopIteration /\
  ~ (exists c name,
       c ∈ connections /\ name ∈ endpoints c /\ ~ named_in states name) /\
  first_named [("1", []); ("12", [(50, 400)])] "1" = Some ("1", []) /\
  next (matching_states [("1", []); ("12", [(50, 400)])] "1")
  = Ok (50, 400).
Proof.
  repeat split; try reflexivity.
  intros (c & name & Hc & Hn & Hnot). apply Hnot.
  apply list_elem_of_singleton in Hc as ->. simpl in Hn.
  assert (name = "1") as ->.
  { apply elem_of_cons in Hn as [-> | Hn]; [reflexivity|].
    apply list_elem_of_singleton in Hn as ->. reflexivity. }
  exists "1", []. split; [left|]. exists "", "". reflexivity.
Qed.

(** *** The colour bar *)

Lemma ticklabels_from_one (n : nat) :
  map (fun i => str_int (i + 1)) (seq 0 n) = map str_int (seq 1 n).
Proof.
  rewrite <- seq_shift, map_map. apply map_ext. intros i.
  rewrite Nat.add_1_r. reflexivity.
Qed.

Lemma add_color_bar_cons (point : string) (point_states : list state)
    (rest : states_map) :
  add_color_bar ((point, point_states) :: rest)
  = Ok (ColorBar 0 (Z.of_nat (length point_states) - 1) "Time Progression"
          (seq 0 (length point_states))
          (map str_int (seq 1 (length point_states)))).
Proof.
  unfold add_color_bar. simpl. rewrite ticklabels_from_one. reflexivity.
Qed.

Lemma add_color_bar_uniform (n : nat) (m : states_map) :
  m <> [] -> uniform n m ->
  add_color_bar m
  = Ok (ColorBar 0 (Z.of_nat n - 1) "Time Progression" (seq 0 n)
          (map str_int (seq 1 n))).
Proof.
  intros Hne Hu. destruct m as [|[point point_states] rest];
    [contradiction|].
  apply Forall_cons in Hu as [Hn _]. simpl in Hn. subst n.
  apply add_color_bar_cons.
Qed.

Section Converted.

Variable ext : collaborators.

Lemma convert_point_length (fluid : string)
    (unit_system : gmap string string) (target_diagram : string)
    (point_states converted : list state) :
  convert_point ext fluid unit_system target_diagram point_states
  = Ok converted ->
  length converted = length point_states.
Proof.
  revert converted.
  induction point_states as [|[p_bar h_kjkg] rest IH];
    intros converted H; simpl in H.
  - injection H as <-. reflexivity.
  - apply bind_Ok in H as ([[T S_] v] & _ & H).
    apply bind_Ok in H as (c & _ & H).
    apply bind_Ok in H as (st & _ & H).
    apply bind_Ok in H as (rest' & Hrest & H).
    injection H as <-. simpl. f_equal. apply IH. exact Hrest.
Qed.

(** [convert_states] keeps the point names, their order and the
    number of samples of each point. *)
Lemma convert_states_shape (fluid : string)
    (unit_system : gmap string string) (target_diagram : string)
    (fluid_states states : states_map) :
  convert_states ext fluid unit_system fluid_states target_diagram
  = Ok states ->
  Forall2 (fun point point' =>
             fst point = fst point' /\
             length (snd point) = length (snd point'))
    fluid_states states.
Proof.
  revert states.
  induction fluid_states as [|[point point_states] rest IH];
    intros states H; simpl in H.
  - injection H as <-. constructor.
  - apply bind_Ok in H as (converted & Hc & H).
    apply bind_Ok in H as (rest' & Hrest & H).
    injection H as <-. constructor; [|apply IH; exact Hrest].
    simpl. split; [reflexivity|]. symmetry.
    eapply convert_point_length. exact Hc.
Qed.

Lemma convert_states_uniform (n : nat) (fluid : string)
    (unit_system : gmap string string) (target_diagram : string)
    (fluid_states states : states_map) :
  convert_states ext fluid unit_system fluid_states target_diagram
  = Ok states ->
  fluid_states <> [] -> uniform n fluid_states ->
  states <> [] /\ uniform n states.
Proof.
  intros H Hne Hu. apply convert_states_shape in H.
  split; [destruct H; [contradiction | discriminate]|].
  clear Hne. unfold uniform in *.
  induction H as [|p p' l l' [_ Hlen] _ IH]; [constructor|].
  apply Forall_cons in Hu as [Hp Hl].
  constructor; [congruence | apply IH; exact Hl].
Qed.

Lemma init_states (fluid_states : states_map) (fluid : string)
    (unit_system : gmap string string) (diagram_type : string)
    (lim : axis_limits) (isoline_settings : list (string * list Q))
    (isoline_styles : gmap string line_style) (self : plotter) :
  init ext fluid_states fluid unit_system diagram_type lim
    isoline_settings isoline_styles = Ok self ->
  convert_states ext fluid (or_default unit_system default_unit_system)
    fluid_states diagram_type = Ok (states self).
Proof.
  unfold init. intros H.
  apply bind_Ok in H as (m & Hm & H).
  apply bind_Ok in H as (u & _ & H).
  injection H as <-. exact Hm.
Qed.

(** C5. When the plotter was built from a non-empty fluid-states
    mapping in which every point has exactly N samples, N >= 1,
    [add_color_bar] sets exactly N ticks, 0 .. N-1, labelled
    '1' .. 'N'. *)
Theorem add_color_bar_tick_count (N : nat) (fluid_states : states_map)
    (fluid : string) (unit_system : gmap string string)
    (diagram_type : string) (lim : axis_limits)
    (isoline_settings : list (string * list Q))
    (isoline_styles : gmap string line_style) (self : plotter) :
  fluid_states <> [] -> (1 <= N)%nat -> uniform N fluid_states ->
  init ext fluid_states fluid unit_system diagram_type lim
    isoline_settings isoline_styles = Ok self ->
  exists cb,
    add_color_bar (states self) = Ok cb /\
    length (ticks cb) = N /\
    ticks cb = seq 0 N /\
    ticklabels cb = map str_int (seq 1 N).
Proof.
  intros Hne _ Hu Hinit. apply init_states in Hinit.
  destruct (convert_states_uniform N _ _ _ _ _ Hinit Hne Hu)
    as [Hne' Hu'].
  eexists. split; [apply add_color_bar_uniform; eassumption|].
  simpl. rewrite length_seq. auto.
Qed.

End Converted.

Example ticklabels_three :
  map str_int (seq 1 3) = ["1"; "2"; "3"].
Proof. reflexivity. Qed.

Lemma add_color_bar_tick_count_witness :
  match init Sample.stub_ext Sample.states_file "CO2" default_unit_system
          "Ts" (AxisLimits 700 2100 10 310) default_isoline_settings
          default_isoline_styles with
  | Ok self =>
      exists cb,
        add_color_bar (states self) = Ok cb /\
        length (ticks cb) = 2%nat /\
        ticks cb = seq 0 2 /\
        ticklabels cb = map str_int (seq 1 2)
  | Raise _ => False
  end.
Proof.
  destruct (init Sample.stub_ext Sample.states_file "CO2"
              default_unit_system "Ts" (AxisLimits 700 2100 10 310)
              default_isoline_settings default_isoline_styles)
    as [self|e] eqn:Hinit; [|vm_compute in Hinit; discriminate].
  apply (add_color_bar_tick_count Sample.stub_ext 2 Sample.states_file
           "CO2" default_unit_system "Ts" (AxisLimits 700 2100 10 310)
           default_isoline_settings default_isoline_styles self);
    [discriminate | lia | repeat constructor | exact Hinit].
Defined.

(** C10. [add_color_bar] raises [StopIteration] on the empty mapping,
    so [create_plot] never returns for it; on a non-empty mapping the
    ticks are those of the first point's sample list, whatever the
    other points hold. *)
Theorem add_color_bar_first_point :
  add_color_bar [] = Raise StopIteration /\
  (forall ext fluid unit_system diagram_type lim isoline_settings
          isoline_styles connections,
     exists e,
       create_plot ext
         (MkPlotter fluid unit_system diagram_type lim isoline_settings
            isoline_styles []) connections = Raise e) /\
  (forall point point_states rest,
     exists cb,
       add_color_bar ((point, point_states) :: rest) = Ok cb /\
       ticks cb = seq 0 (length point_states) /\
       length (ticks cb) = length point_states /\
       ticklabels cb = map str_int (seq 1 (length point_states))) /\
  (forall point point_states rest rest',
     add_color_bar ((point, point_states) :: rest)
     = add_color_bar ((point, point_states) :: rest')).
Proof.
  split; [reflexivity|]. split; [|split].
  - intros. unfold create_plot. simpl.
    destruct (get_isoline_data _) as [d|e]; simpl; [|eauto].
    destruct (draw_isolines _ _ _ _) as [u|e]; simpl; [|eauto].
    unfold plot_fluid_states. destruct connections as [|[[s e] lt] l];
      simpl; eauto.
  - intros. eexists. split; [apply add_color_bar_cons|]. simpl.
    rewrite length_seq. auto.
  - intros. rewrite !add_color_bar_cons. reflexivity.
Qed.

End Plotting.

(** ** The update indicator (Frame.py) *)

Section UpdatePlot.

Import Plotter Frame.

Section AnyEnvironment.

Variable env : environment.

Lemma load_json_files_try_style (w w' : window) (r : result unit) :
  load_json_files_try env w = (w', r) ->
  update_button_style w' = update_button_style w /\
  dialogs w' = dialogs w.
Proof.
  unfold load_json_files_try. intros H.
  repeat match type of H with
         | context [match ?x with _ => _ end] => destruct x
         end;
    injection H as ? ?; subst; auto.
Qed.

(** [load_json_files] never touches the button, and shows a message
    exactly when its own [try] raised. *)
Lemma load_json_files_effect (w : window) :
  update_button_style (load_json_files env w) = update_button_style w /\
  match snd (load_json_files_try env w) with
  | Ok _ => dialogs (load_json_files env w) = dialogs w
  | Raise e =>
      dialogs (load_json_files env w)
      = dialogs w ++ ["Error loading JSON files: " +:+ str e]
  end.
Proof.
  unfold load_json_files.
  destruct (load_json_files_try env w) as [w' r] eqn:H.
  apply load_json_files_try_style in H as [Hs Hd].
  destruct r; simpl; rewrite ?Hs, ?Hd; auto.
Qed.

(** A statement of the [try] of [update_plot] that raises leaves the
    button and the list of dialogs as [load_json_files] left them. *)
Lemma update_plot_try_Raise (w w' : window) (e : exn) :
  update_plot_try env w = (w', Raise e) ->
  update_button_style w' = update_button_style w /\
  dialogs w' = dialogs (load_json_files env w) /\
  shown_figure w' = shown_figure (load_json_files env w).
Proof.
  unfold update_plot_try. intros H.
  pose proof (load_json_files_effect w) as [Hs _].
  repeat match type of H with
         | context [match ?x with _ => _ end] => destruct x
         end;
    try discriminate H; injection H as ? ?; subst; simpl; auto.
Qed.

Lemma update_plot_try_Ok (w w' : window) (u : unit) :
  update_plot_try env w = (w', Ok u) ->
  update_button_style w' = "" /\
  dialogs w' = dialogs (load_json_files env w) /\
  shown_figure w' = current_figure w' /\
  is_Some (shown_figure w').
Proof.
  unfold update_plot_try. intros H.
  repeat match type of H with
         | context [match ?x with _ => _ end] => destruct x
         end;
    try discriminate H.
  injection H as ?; subst. simpl. eauto.
Qed.

(** Parsing, construction and plotting failures: one more message,
    the button as it was, the canvas showing what it showed. *)
Lemma update_plot_failure_keeps_style (w w' : window) (e : exn) :
  update_plot_try env w = (w', Raise e) ->
  update_button_style (update_plot env w) = update_button_style w /\
  shown_figure (update_plot env w)
  = shown_figure (load_json_files env w) /\
  exists message,
    dialogs (update_plot env w)
    = dialogs (load_json_files env w) ++ [message].
Proof.
  intros H. unfold update_plot. rewrite H.
  apply update_plot_try_Raise in H as (Hs & Hd & Hf).
  destruct (is_ValueError e); simpl; rewrite Hs, Hd, Hf; eauto.
Qed.

(** The button style changes only when the [try] ran to its end. *)
Lemma update_plot_clears_only_on_success (w : window) :
  update_button_style (update_plot env w) <> update_button_style w ->
  snd (update_plot_try env w) = Ok tt /\
  update_button_style (update_plot env w) = "".
Proof.
  intros Hne. destruct (update_plot_try env w) as [w' [[]|e]] eqn:H.
  - split; [reflexivity|]. unfold update_plot. rewrite H.
    apply update_plot_try_Ok in H. tauto.
  - exfalso. apply Hne.
    apply update_plot_failure_keeps_style in H. tauto.
Qed.

End AnyEnvironment.

(** A malformed axis limit: the message of [float] is shown and the
    button stays red. *)
Example update_plot_malformed_limit :
  let w := update_plot Sample.env Sample.malformed_window in
  update_button_style w = needs_update_style /\
  dialogs w = ["Error: could not convert string to float: 'abc'"] /\
  shown_figure w = None.
Proof. vm_compute. auto. Qed.

(** C7. The loading failure is the one that the claim does not hold
    for.  With both files loaded earlier and the fluid-states path
    emptied since, [load_json_files] raises inside its own [try], shows
    its message and returns; [update_plot] goes on with the states
    loaded before, draws them and clears the red style of the button. *)
Theorem update_plot_stale_load_clears_style :
  let w := Sample.stale_window in
  let w' := update_plot Sample.env w in
  update_button_style w = needs_update_style /\
  snd (load_json_files_try Sample.env w)
  = Raise (ValueError "Please select a fluid states JSON file.") /\
  dialogs w'
  = ["Error loading JSON files: Please select a fluid states JSON file."]
  /\
  update_button_style w' = "" /\
  is_Some (shown_figure w').
Proof.
  repeat split; try (vm_compute; reflexivity).
  vm_compute. eauto.
Qed.

End UpdatePlot.

(** ** More on unit conversion *)

Section MoreConversion.

Local Open Scope Q_scope.

Import Plotter Frame Spec.

Lemma pressure_dom : dom pressure_factors = list_to_set Units.pressure.
Proof. vm_compute. reflexivity. Qed.

Lemma entropy_dom : dom entropy_factors = list_to_set Units.entropy.
Proof. vm_compute. reflexivity. Qed.

Lemma enthalpy_dom : dom enthalpy_factors = list_to_set Units.enthalpy.
Proof. vm_compute. reflexivity. Qed.

Lemma volume_dom : dom volume_factors = list_to_set Units.volume.
Proof. vm_compute. reflexivity. Qed.

Lemma lookup_outside (m : gmap string Q) (l : list string) (u : string) :
  dom m = list_to_set l -> u ∉ l -> m !! u = None.
Proof.
  intros Hd Hu. apply not_elem_of_dom. rewrite Hd, elem_of_list_to_set.
  exact Hu.
Qed.

Lemma has_factor_inside (m : gmap string Q) (l : list string) (u : string) :
  dom m = list_to_set l -> has_factor m u -> u ∈ l.
Proof.
  intros Hd (f & Hf & _).
  assert (u ∈ dom m) as Hin by (apply elem_of_dom; eauto).
  rewrite Hd, elem_of_list_to_set in Hin. exact Hin.
Qed.

(** The three outcomes of a factor conversion. *)
Lemma convert_by_outcome (m : gmap string Q) (l : list string) (v : Q)
    (u1 u2 : string) :
  dom m = list_to_set l ->
  (u1 ∉ l -> convert_by m v u1 u2 = Raise (KeyError u1)) /\
  (u1 ∈ l -> u2 ∉ l -> convert_by m v u1 u2 = Raise (KeyError u2)) /\
  (u1 ∈ l -> u2 ∈ l -> exists x, convert_by m v u1 u2 = Ok x).
Proof.
  intros Hd. unfold convert_by, getitem. repeat split.
  - intros H1. rewrite (lookup_outside m l u1 Hd H1). reflexivity.
  - intros H1 H2. rewrite (lookup_outside m l u2 Hd H2).
    destruct (m !! u1) as [f|] eqn:Hf; [reflexivity|].
    exfalso. apply not_elem_of_dom in Hf.
    rewrite Hd, elem_of_list_to_set in Hf. contradiction.
  - intros H1 H2.
    destruct (m !! u1) as [f1|] eqn:Hf1.
    2:{ exfalso. apply not_elem_of_dom in Hf1.
        rewrite Hd, elem_of_list_to_set in Hf1. contradiction. }
    destruct (m !! u2) as [f2|] eqn:Hf2; [simpl; eauto|].
    exfalso. apply not_elem_of_dom in Hf2.
    rewrite Hd, elem_of_list_to_set in Hf2. contradiction.
Qed.

(** X4. For pressure, entropy, enthalpy and volume [convert_field]
    raises [KeyError] on the first unit, old before new, that the form
    does not offer, and returns otherwise; for temperature it never
    raises and returns the value unchanged when a unit is not one of
    K, °C and °F. *)
Theorem convert_field_outcome (kind u1 u2 : string) (v : Q) :
  (kind ∈ ["p"; "s"; "h"; "v"] ->
   (u1 ∉ Units.supported kind ->
    convert_field v u1 u2 kind = Raise (KeyError u1)) /\
   (u1 ∈ Units.supported kind -> u2 ∉ Units.supported kind ->
    convert_field v u1 u2 kind = Raise (KeyError u2)) /\
   (u1 ∈ Units.supported kind -> u2 ∈ Units.supported kind ->
    exists x, convert_field v u1 u2 kind = Ok x)) /\
  (exists x, convert_field v u1 u2 "T" = Ok x) /\
  (u1 ∉ Units.temperature \/ u2 ∉ Units.temperature ->
   convert_field v u1 u2 "T" = Ok v).
Proof.
  split; [|split].
  - intros Hk. cases_of Hk; unfold convert_field; simpl.
    + apply (convert_by_outcome _ _ v u1 u2 pressure_dom).
    + apply (convert_by_outcome _ _ v u1 u2 entropy_dom).
    + apply (convert_by_outcome _ _ v u1 u2 enthalpy_dom).
    + apply (convert_by_outcome _ _ v u1 u2 volume_dom).
  - eexists. reflexivity.
  - unfold Units.temperature. intros H. unfold convert_field. simpl.
    f_equal. unfold convert_temperature.
    repeat case_decide; subst; try reflexivity; exfalso;
      destruct H as [H | H]; apply H; set_solver.
Qed.

Lemma convert_field_outcome_witness :
  convert_field 1 "atm" "bar" "p" = Raise (KeyError "atm") /\
  convert_field 1 "bar" "atm" "p" = Raise (KeyError "atm") /\
  (exists x, convert_field 1 "bar" "psi" "p" = Ok x) /\
  convert_field 1 "K" "R" "T" = Ok 1.
Proof.
  destruct (convert_field_outcome "p" "atm" "bar" 1) as [Hp _].
  destruct (convert_field_outcome "p" "bar" "atm" 1) as [Hp' _].
  destruct (convert_field_outcome "p" "bar" "psi" 1) as [Hp'' _].
  destruct (convert_field_outcome "T" "K" "R" 1) as (_ & _ & HT).
  split; [apply Hp; decide_closed|].
  split; [apply Hp'; decide_closed|].
  split; [apply Hp''; decide_closed|].
  apply HT. right. decide_closed.
Defined.

Lemma convert_by_compose (m : gmap string Q) (v : Q) (u1 u2 u3 : string) :
  has_factor m u1 -> has_factor m u2 -> has_factor m u3 ->
  exists a b c,
    convert_by m v u1 u2 = Ok a /\ convert_by m a u2 u3 = Ok b /\
    convert_by m v u1 u3 = Ok c /\ b == c.
Proof.
  intros (f1 & H1 & N1) (f2 & H2 & N2) (f3 & H3 & N3).
  exists (v * f1 / f2), (v * f1 / f2 * f2 / f3), (v * f1 / f3).
  unfold convert_by.
  rewrite !(getitem_Some _ _ _ H1), !(getitem_Some _ _ _ H2),
    !(getitem_Some _ _ _ H3). simpl.
  repeat split; try reflexivity. field. auto.
Qed.

(** X3. In exact arithmetic, within one quantity kind, converting
    through an intermediate unit gives the value of the direct
    conversion.  On binary64 the two agree up to rounding only:
    0.07 bar taken to psi and from there to kPa is 7.0, and taken to
    kPa directly it is 7.000000000000001. *)
Theorem convert_field_compose (kind u1 u2 u3 : string) (v : Q) :
  (kind ∈ Units.kinds ->
   u1 ∈ Units.supported kind -> u2 ∈ Units.supported kind ->
   u3 ∈ Units.supported kind ->
   exists a b c,
     convert_field v u1 u2 kind = Ok a /\
     convert_field a u2 u3 kind = Ok b /\
     convert_field v u1 u3 kind = Ok c /\
     b == c) /\
  (let* a := FrameF.convert_pressure 0.07%float "bar" "psi" in
   FrameF.convert_pressure a "psi" "kPa") = Ok 7%float /\
  FrameF.convert_pressure 0.07%float "bar" "kPa"
  = Ok 7.000000000000001%float /\
  PrimFloat.eqb 7%float 7.000000000000001%float = false.
Proof.
  split; [|repeat split; vm_compute; reflexivity].
  intros Hk H1 H2 H3. unfold Units.kinds in Hk. cases_of Hk;
    unfold convert_field; simpl in *.
  - apply convert_by_compose; auto using pressure_has_factor.
  - eexists _, _, _. repeat split; try reflexivity.
    apply convert_temperature_compose; assumption.
  - apply convert_by_compose; auto using entropy_has_factor.
  - apply convert_by_compose; auto using enthalpy_has_factor.
  - apply convert_by_compose; auto using volume_has_factor.
  - exists v, v, v. repeat split; reflexivity.
Qed.

Lemma convert_field_compose_witness :
  exists a b c,
    convert_field 0.07 "bar" "psi" "p" = Ok a /\
    convert_field a "psi" "kPa" "p" = Ok b /\
    convert_field 0.07 "bar" "kPa" "p" = Ok c /\
    b == c.
Proof.
  destruct (convert_field_compose "p" "bar" "psi" "kPa" 0.07) as [H _].
  apply H; decide_closed.
Defined.

(** *** The plotter's conversions against the form's *)

Ltac lookup_factors :=
  repeat match goal with
         | |- context [getitem ?m ?k] =>
             let r := eval vm_compute in (m !! k) in
             match r with
             | Some ?f =>
                 rewrite (getitem_Some m k f) by (vm_compute; reflexivity)
             end
         end.

(** Powers of ten written with an exponent, as plain numerals. *)
Ltac plain_literals :=
  change 1e2 with 100; change 1e3 with 1000; change 1e5 with 100000;
  change 1e6 with 1000000.

Ltac from_si Hu Hin :=
  rewrite (getitem_Some _ _ _ Hu); cases_of Hin; simpl;
  repeat case_decide; simplify_eq;
  unfold Frame.convert_entropy, Frame.convert_enthalpy,
    Frame.convert_volume, Frame.convert_pressure, convert_by;
  lookup_factors; simpl;
  eexists _, _; (split; [reflexivity|]); (split; [reflexivity|]);
  plain_literals; field.

(** X5. In exact arithmetic the plotter converts entropy, enthalpy,
    specific volume, and pressure in every unit other than psi, from
    the SI unit to the value that the form's conversion gives.  On
    binary64 the two agree up to rounding only: 0.043 m^3/kg is 43.0
    l/kg for the plotter, which multiplies by 1e3, and
    42.99999999999999 l/kg for the form, which divides by 0.001. *)
Theorem plotter_conversion_matches_form (us : gmap string string)
    (u : string) (x : Q) :
  (us !! "s" = Some u -> u ∈ Units.entropy ->
   exists a b,
     Plotter.convert_entropy us x = Ok a /\
     Frame.convert_entropy x "J/kgK" u = Ok b /\ a == b) /\
  (us !! "h" = Some u -> u ∈ Units.enthalpy ->
   exists a b,
     Plotter.convert_enthalpy us x = Ok a /\
     Frame.convert_enthalpy x "J/kg" u = Ok b /\ a == b) /\
  (us !! "v" = Some u -> u ∈ Units.volume ->
   exists a b,
     Plotter.convert_volume us x = Ok a /\
     Frame.convert_volume x "m^3/kg" u = Ok b /\ a == b) /\
  (us !! "p" = Some u -> u ∈ Units.pressure -> u <> "psi" ->
   exists a b,
     Plotter.convert_pressure us x = Ok a /\
     Frame.convert_pressure x "Pa" u = Ok b /\ a == b) /\
  PlotterF.convert_volume {[ "v" := "l/kg" ]} 0.043%float = Ok 43%float /\
  FrameF.convert_volume 0.043%float "m^3/kg" "l/kg"
  = Ok 42.99999999999999%float /\
  PrimFloat.eqb 43%float 42.99999999999999%float = false.
Proof.
  repeat split; try (vm_compute; reflexivity).
  - intros Hu Hin. unfold Plotter.convert_entropy, Units.entropy in *.
    from_si Hu Hin.
  - intros Hu Hin. unfold Plotter.convert_enthalpy, Units.enthalpy in *.
    from_si Hu Hin.
  - intros Hu Hin. unfold Plotter.convert_volume, Units.volume in *.
    from_si Hu Hin.
  - intros Hu Hin Hpsi.
    unfold Plotter.convert_pressure, Units.pressure in *.
    cases_of Hin; try contradiction;
      rewrite (getitem_Some _ _ _ Hu); simpl;
      repeat case_decide; simplify_eq;
      unfold Frame.convert_pressure, convert_by; lookup_factors; simpl;
      eexists _, _; (split; [reflexivity|]); (split; [reflexivity|]);
      plain_literals; field.
Qed.

Lemma plotter_conversion_matches_form_witness :
  (exists a b,
     Plotter.convert_pressure {[ "p" := "bar" ]} 250000 = Ok a /\
     Frame.convert_pressure 250000 "Pa" "bar" = Ok b /\ a == b) /\
  (exists a b,
     Plotter.convert_volume {[ "v" := "l/kg" ]} 0.043 = Ok a /\
     Frame.convert_volume 0.043 "m^3/kg" "l/kg" = Ok b /\ a == b).
Proof.
  split.
  - destruct (plotter_conversion_matches_form {[ "p" := "bar" ]} "bar"
                250000) as (_ & _ & _ & Hp & _).
    apply Hp; [reflexivity | decide_closed | discriminate].
  - destruct (plotter_conversion_matches_form {[ "v" := "l/kg" ]} "l/kg"
                0.043) as (_ & _ & Hv & _).
    apply Hv; [reflexivity | decide_closed].
Defined.

(** X6. In psi the two disagree: the plotter multiplies by
    0.0001450377 and the form divides by 6894.76, so for every
    non-zero pressure the values differ, and the form does not bring
    the plotter's value back to the pascals it came from. *)
Theorem plotter_psi_differs (us : gmap string string) (p : Q) :
  us !! "p" = Some "psi" -> ~ p == 0 ->
  exists a b c,
    Plotter.convert_pressure us p = Ok a /\
    Frame.convert_pressure p "Pa" "psi" = Ok b /\
    Frame.convert_pressure a "psi" "Pa" = Ok c /\
    ~ a == b /\ ~ c == p.
Proof.
  intros Hu Hp. unfold Plotter.convert_pressure.
  rewrite (getitem_Some _ _ _ Hu). simpl.
  eexists _, _, _. split; [reflexivity|]. split; [reflexivity|].
  split; [reflexivity|]. split; intros H; apply Hp.
  - assert (E : p == (p * 0.0001450377 - p * 1 / 6894.76)
                     / (0.0001450377 - 1 / 6894.76)) by field.
    rewrite E, H. field.
  - assert (E : p == (p * 0.0001450377 * 6894.76 / 1 - p)
                     / (0.0001450377 * 6894.76 - 1)) by field.
    rewrite E, H. field.
Qed.

Lemma plotter_psi_differs_witness :
  exists a b c,
    Plotter.convert_pressure {[ "p" := "psi" ]} 100000 = Ok a /\
    Frame.convert_pressure 100000 "Pa" "psi" = Ok b /\
    Frame.convert_pressure a "psi" "Pa" = Ok c /\
    ~ a == b /\ ~ c == 100000.
Proof.
  apply (plotter_psi_differs {[ "p" := "psi" ]} 100000);
    [reflexivity | discriminate].
Defined.

(** *** Samples in the units of the input file *)

Section InputUnits.

Variable ext : collaborators.

(** X7. The input file gives pressure in bar and enthalpy in kJ/kg:
    when these are the display units, the samples that
    [convert_states] produces for a 'logph' diagram are, in exact
    arithmetic, the samples of the file, point by point.  On
    binary64 they are so up to rounding only: a pressure of
    1653.704249344076 bar comes back as 1653.7042493440758. *)
Theorem convert_states_logph_identity (fluid : string)
    (us : gmap string string) (fluid_states states : states_map) :
  (us !! "p" = Some "bar" -> us !! "h" = Some "kJ/kg" ->
   convert_states ext fluid us fluid_states "logph" = Ok states ->
   Forall2 (fun point point' =>
              fst point = fst point' /\
              Forall2 state_eq (snd point) (snd point'))
     fluid_states states) /\
  PlotterF.convert_pressure {[ "p" := "bar" ]}
    (PlotterF.bar_to_Pa 1653.704249344076%float)
  = Ok 1653.7042493440758%float /\
  PrimFloat.eqb 1653.704249344076%float 1653.7042493440758%float
  = false.
Proof.
  split; [|split; vm_compute; reflexivity].
  intros Hp Hh. revert states.
  assert (Hpoint : forall samples out,
             convert_point ext fluid us "logph" samples = Ok out ->
             Forall2 state_eq samples out).
  { induction samples as [|[p h] rest IH]; intros out H; simpl in H.
    - injection H as <-. constructor.
    - apply bind_Ok in H as ([[T S_] v] & _ & H).
      apply bind_Ok in H as (c & Hc & H).
      apply bind_Ok in H as (rest' & Hrest & H).
      injection H as <-. constructor; [|apply IH; exact Hrest].
      unfold convert_units in Hc.
      apply bind_Ok in Hc as (Ta' & _ & Hc).
      apply bind_Ok in Hc as (Sa' & _ & Hc).
      apply bind_Ok in Hc as (va' & _ & Hc).
      apply bind_Ok in Hc as (pa' & Hpa & Hc).
      apply bind_Ok in Hc as (ha' & Hha & Hc).
      injection Hc as <-.
      unfold Plotter.convert_pressure in Hpa.
      rewrite (getitem_Some _ _ _ Hp) in Hpa. simpl in Hpa.
      injection Hpa as <-.
      unfold Plotter.convert_enthalpy in Hha.
      rewrite (getitem_Some _ _ _ Hh) in Hha. simpl in Hha.
      injection Hha as <-.
      unfold state_eq, bar_to_Pa. simpl. plain_literals.
      split; field. }
  induction fluid_states as [|[point samples] rest IH]; intros states H;
    simpl in H.
  - injection H as <-. constructor.
  - apply bind_Ok in H as (out & Hout & H).
    apply bind_Ok in H as (rest' & Hrest & H).
    injection H as <-. constructor; [|apply IH; exact Hrest].
    simpl. split; [reflexivity | apply Hpoint; exact Hout].
Qed.

End InputUnits.

Lemma convert_states_logph_identity_witness :
  match convert_states Sample.stub_ext "CO2"
          (<["p" := "bar"]> (<["h" := "kJ/kg"]> default_unit_system))
          Sample.states_file "logph" with
  | Ok states =>
      Forall2 (fun point point' =>
                 fst point = fst point' /\
                 Forall2 state_eq (snd point) (snd point'))
        Sample.states_file states
  | Raise _ => False
  end.
Proof.
  destruct (convert_states Sample.stub_ext "CO2"
              (<["p" := "bar"]> (<["h" := "kJ/kg"]> default_unit_system))
              Sample.states_file "logph") as [states|e] eqn:H;
    [|vm_compute in H; discriminate].
  destruct (convert_states_logph_identity Sample.stub_ext "CO2"
              (<["p" := "bar"]> (<["h" := "kJ/kg"]> default_unit_system))
              Sample.states_file states) as [Hsame _].
  apply Hsame; [reflexivity | reflexivity | exact H].
Defined.

End MoreConversion.

(** ** Conversion of the axis limits (Frame.py) *)

Section AxisLimitConversion.

Local Open Scope Q_scope.

Import Plotter Frame Spec.

Ltac dispatch :=
  unfold convert_value;
  repeat first
    [ rewrite decide_True
        by (first [assumption | reflexivity | decide_closed])
    | rewrite decide_False
        by (first [assumption | discriminate | decide_closed]) ].

Lemma convert_value_same (v : Q) (u : option string)
    (diagram_type axis : string) :
  convert_value v u u diagram_type axis = Ok v.
Proof. unfold convert_value. rewrite decide_True; reflexivity. Qed.

Lemma convert_value_factor_round_trip (m : gmap string Q)
    (diagram_type axis : string) (u1 u2 : string) (v : Q) :
  (forall x a b,
     Some a <> Some b ->
     convert_value x (Some a) (Some b) diagram_type axis
     = convert_by m x a b) ->
  has_factor m u1 -> has_factor m u2 ->
  exists v1 v2,
    convert_value v (Some u1) (Some u2) diagram_type axis = Ok v1 /\
    convert_value v1 (Some u2) (Some u1) diagram_type axis = Ok v2 /\
    v2 == v.
Proof.
  intros Hd H1 H2. destruct (decide (u1 = u2)) as [->|Hne].
  - exists v, v. rewrite !convert_value_same. repeat split; reflexivity.
  - rewrite Hd by congruence.
    destruct (convert_by_round_trip m v u1 u2 H1 H2)
      as (v1 & v2 & E1 & E2 & E).
    exists v1, v2. rewrite Hd by congruence. auto.
Qed.

Lemma convert_value_temperature_round_trip (diagram_type : string)
    (u1 u2 : string) (v : Q) :
  diagram_type ∈ ["Ts"; "Th"] ->
  u1 ∈ Units.temperature -> u2 ∈ Units.temperature ->
  exists v1 v2,
    convert_value v (Some u1) (Some u2) diagram_type "y" = Ok v1 /\
    convert_value v1 (Some u2) (Some u1) diagram_type "y" = Ok v2 /\
    v2 == v.
Proof.
  intros Hdt H1 H2. destruct (decide (u1 = u2)) as [->|Hne].
  - exists v, v. rewrite !convert_value_same. repeat split; reflexivity.
  - assert (Some u1 <> Some u2) by congruence.
    assert (Some u2 <> Some u1) by congruence.
    eexists _, _. split; [dispatch; reflexivity|].
    split; [dispatch; reflexivity|]. simpl.
    apply convert_temperature_round_trip; assumption.
Qed.

Tactic Notation "offer" constr(H) constr(key) "as" ident(u) ident(Hu)
    ident(Hin) :=
  destruct (H key) as (u & Hu & Hin); [decide_closed|];
  simpl in Hin.

Ltac axis_units :=
  unfold convert_diagram_axis_limits, get_axis_units; simpl;
  repeat match goal with
         | H : ?m !! ?k = Some ?u |- context [getitem ?m ?k] =>
             rewrite (getitem_Some m k u H)
         end;
  simpl.

Ltac round_trip_with E :=
  let a := fresh "a" in
  let b := fresh "b" in
  let Ha := fresh "Ha" in
  let Hb := fresh "Hb" in
  let Hab := fresh "Hab" in
  destruct E as (a & b & Ha & Hb & Hab).

(** X2. On a 'Ts', 'logph' or 'plogv' diagram, converting the four
    axis limits from one offered unit system to another and back
    succeeds and returns the limits it started from. *)
Theorem axis_limits_round_trip (diagram_type : string)
    (lim : axis_limits) (old_units new_units : gmap string string) :
  diagram_type ∈ ["Ts"; "logph"; "plogv"] ->
  offered old_units -> offered new_units ->
  exists l1 l2,
    convert_diagram_axis_limits lim diagram_type old_units new_units
    = Ok l1 /\
    convert_diagram_axis_limits l1 diagram_type new_units old_units
    = Ok l2 /\
    limits_eq l2 lim.
Proof.
  intros Hdt Hold Hnew.
  offer Hold "p" as po Hpo Ipo. offer Hold "T" as To HTo ITo.
  offer Hold "s" as so Hso Iso. offer Hold "h" as ho Hho Iho.
  offer Hold "v" as vo Hvo Ivo.
  offer Hnew "p" as pn Hpn Ipn. offer Hnew "T" as Tn HTn ITn.
  offer Hnew "s" as sn Hsn Isn. offer Hnew "h" as hn Hhn Ihn.
  offer Hnew "v" as vn Hvn Ivn.
  destruct lim as [x0 x1 y0 y1]. cases_of Hdt.
  - assert (Hx : forall x a b, Some a <> Some b ->
              convert_value x (Some a) (Some b) "Ts" "x"
              = convert_by entropy_factors x a b)
      by (intros; dispatch; reflexivity).
    round_trip_with (convert_value_factor_round_trip _ _ _ so sn x0 Hx
                       (entropy_has_factor _ Iso)
                       (entropy_has_factor _ Isn)).
    round_trip_with (convert_value_factor_round_trip _ _ _ so sn x1 Hx
                       (entropy_has_factor _ Iso)
                       (entropy_has_factor _ Isn)).
    round_trip_with (convert_value_temperature_round_trip "Ts" To Tn y0
                       ltac:(decide_closed) ITo ITn).
    round_trip_with (convert_value_temperature_round_trip "Ts" To Tn y1
                       ltac:(decide_closed) ITo ITn).
    eexists _, _. split; [|split].
    + axis_units. rewrite Ha, Ha0, Ha1, Ha2. reflexivity.
    + axis_units. rewrite Hb, Hb0, Hb1, Hb2. reflexivity.
    + repeat split; assumption.
  - assert (Hx : forall x a b, Some a <> Some b ->
              convert_value x (Some a) (Some b) "logph" "x"
              = convert_by enthalpy_factors x a b)
      by (intros; dispatch; reflexivity).
    assert (Hy : forall x a b, Some a <> Some b ->
              convert_value x (Some a) (Some b) "logph" "y"
              = convert_by pressure_factors x a b)
      by (intros; dispatch; reflexivity).
    round_trip_with (convert_value_factor_round_trip _ _ _ ho hn x0 Hx
                       (enthalpy_has_factor _ Iho)
                       (enthalpy_has_factor _ Ihn)).
    round_trip_with (convert_value_factor_round_trip _ _ _ ho hn x1 Hx
                       (enthalpy_has_factor _ Iho)
                       (enthalpy_has_factor _ Ihn)).
    round_trip_with (convert_value_factor_round_trip _ _ _ po pn y0 Hy
                       (pressure_has_factor _ Ipo)
                       (pressure_has_factor _ Ipn)).
    round_trip_with (convert_value_factor_round_trip _ _ _ po pn y1 Hy
                       (pressure_has_factor _ Ipo)
                       (pressure_has_factor _ Ipn)).
    eexists _, _. split; [|split].
    + axis_units. rewrite Ha, Ha0, Ha1, Ha2. reflexivity.
    + axis_units. rewrite Hb, Hb0, Hb1, Hb2. reflexivity.
    + repeat split; assumption.
  - assert (Hx : forall x a b, Some a <> Some b ->
              convert_value x (Some a) (Some b) "plogv" "x"
              = convert_by volume_factors x a b)
      by (intros; dispatch; reflexivity).
    assert (Hy : forall x a b, Some a <> Some b ->
              convert_value x (Some a) (Some b) "plogv" "y"
              = convert_by pressure_factors x a b)
      by (intros; dispatch; reflexivity).
    round_trip_with (convert_value_factor_round_trip _ _ _ vo vn x0 Hx
                       (volume_has_factor _ Ivo)
                       (volume_has_factor _ Ivn)).
    round_trip_with (convert_value_factor_round_trip _ _ _ vo vn x1 Hx
                       (volume_has_factor _ Ivo)
                       (volume_has_factor _ Ivn)).
    round_trip_with (convert_value_factor_round_trip _ _ _ po pn y0 Hy
                       (pressure_has_factor _ Ipo)
                       (pressure_has_factor _ Ipn)).
    round_trip_with (convert_value_factor_round_trip _ _ _ po pn y1 Hy
                       (pressure_has_factor _ Ipo)
                       (pressure_has_factor _ Ipn)).
    eexists _, _. split; [|split].
    + axis_units. rewrite Ha, Ha0, Ha1, Ha2. reflexivity.
    + axis_units. rewrite Hb, Hb0, Hb1, Hb2. reflexivity.
    + repeat split; assumption.
Qed.

Lemma default_unit_system_offered : offered default_unit_system.
Proof.
  intros key Hk. cases_of Hk; eexists;
    (split; [vm_compute; reflexivity | decide_closed]).
Qed.

Lemma form_unit_system_offered :
  offered (Frame.get_unit_system Sample.stale_window).
Proof.
  intros key Hk. cases_of Hk; eexists;
    (split; [vm_compute; reflexivity | decide_closed]).
Qed.

Lemma kelvin_unit_system_offered :
  offered (<["s" := "kJ/kgK"]> (<["T" := "K"]> default_unit_system)).
Proof.
  intros key Hk. cases_of Hk; eexists;
    (split; [vm_compute; reflexivity | decide_closed]).
Qed.

(** Limits of a 'Ts' diagram in J/kgK and °C, taken to kJ/kgK and K
    (0.7 to 2.1 and 283.15 to 583.15) and back. *)
Lemma axis_limits_round_trip_witness :
  exists l1 l2,
    convert_diagram_axis_limits (AxisLimits 700 2100 10 310) "Ts"
      default_unit_system
      (<["s" := "kJ/kgK"]> (<["T" := "K"]> default_unit_system))
    = Ok l1 /\
    limits_eq l1 (AxisLimits 0.7 2.1 283.15 583.15) /\
    convert_diagram_axis_limits l1 "Ts"
      (<["s" := "kJ/kgK"]> (<["T" := "K"]> default_unit_system))
      default_unit_system
    = Ok l2 /\
    limits_eq l2 (AxisLimits 700 2100 10 310).
Proof.
  destruct (axis_limits_round_trip "Ts" (AxisLimits 700 2100 10 310)
              default_unit_system
              (<["s" := "kJ/kgK"]> (<["T" := "K"]> default_unit_system)))
    as (l1 & l2 & H1 & H2 & H3);
    [decide_closed | exact default_unit_system_offered
    | exact kelvin_unit_system_offered |].
  exists l1, l2. repeat split; try assumption; try apply H3;
    vm_compute in H1; injection H1 as <-; vm_compute; reflexivity.
Defined.

Lemma entropy_unit_no_enthalpy_factor (u : string) :
  u ∈ Units.entropy -> enthalpy_factors !! u = None.
Proof.
  intros H. unfold Units.entropy in H. cases_of H; reflexivity.
Qed.

Lemma enthalpy_unit_no_pressure_factor (u : string) :
  u ∈ Units.enthalpy -> pressure_factors !! u = None.
Proof.
  intros H. unfold Units.enthalpy in H. cases_of H; reflexivity.
Qed.

Lemma enthalpy_unit_no_entropy_factor (u : string) :
  u ∈ Units.enthalpy -> entropy_factors !! u = None.
Proof.
  intros H. unfold Units.enthalpy in H. cases_of H; reflexivity.
Qed.

Lemma convert_by_unit_missing (m : gmap string Q) (v : Q) (a b : string) :
  m !! a = None ->
  convert_by_unit m v (Some a) (Some b) = Raise (KeyError a).
Proof.
  intros H. unfold convert_by_unit, getitem_unit, getitem. rewrite H.
  reflexivity.
Qed.

(** X1. [convert_value] pairs the 'hs' axes with the enthalpy and the
    pressure converters and the 'Th' abscissa with the entropy
    converter, while [get_axis_units] hands it entropy and enthalpy
    units for 'hs' and enthalpy units for 'Th'.  So on an 'hs' diagram
    a change of the entropy or of the enthalpy unit, and on a 'Th'
    diagram a change of the enthalpy unit, makes the conversion of the
    axis limits raise [KeyError] on the old unit; with these units
    unchanged the 'hs' limits are returned as they are. *)
Theorem axis_limits_mismatched_converter (lim : axis_limits)
    (old_units new_units : gmap string string) :
  offered old_units -> offered new_units ->
  (old_units !! "s" <> new_units !! "s" \/
   old_units !! "h" <> new_units !! "h" ->
   exists u,
     (old_units !! "s" = Some u \/ old_units !! "h" = Some u) /\
     convert_diagram_axis_limits lim "hs" old_units new_units
     = Raise (KeyError u)) /\
  (old_units !! "h" <> new_units !! "h" ->
   exists u,
     old_units !! "h" = Some u /\
     convert_diagram_axis_limits lim "Th" old_units new_units
     = Raise (KeyError u)) /\
  (old_units !! "s" = new_units !! "s" ->
   old_units !! "h" = new_units !! "h" ->
   convert_diagram_axis_limits lim "hs" old_units new_units = Ok lim).
Proof.
  intros Hold Hnew.
  offer Hold "s" as so Hso Iso. offer Hold "h" as ho Hho Iho.
  offer Hold "T" as To HTo ITo.
  offer Hnew "s" as sn Hsn Isn. offer Hnew "h" as hn Hhn Ihn.
  offer Hnew "T" as Tn HTn ITn.
  destruct lim as [x0 x1 y0 y1].
  rewrite Hso, Hho, Hsn, Hhn. split; [|split].
  - intros Hne. destruct (decide (so = sn)) as [->|Hs].
    + assert (Some ho <> Some hn) as Hh by (destruct Hne; congruence).
      exists ho. split; [right; reflexivity|]. axis_units.
      rewrite !convert_value_same. simpl.
      assert (E : convert_value y0 (Some ho) (Some hn) "hs" "y"
                  = Raise (KeyError ho)).
      { dispatch. apply convert_by_unit_missing.
        apply enthalpy_unit_no_pressure_factor. exact Iho. }
      rewrite E. reflexivity.
    + exists so. split; [left; reflexivity|]. axis_units.
      assert (E : convert_value x0 (Some so) (Some sn) "hs" "x"
                  = Raise (KeyError so)).
      { assert (Some so <> Some sn) by congruence. dispatch.
        apply convert_by_unit_missing.
        apply entropy_unit_no_enthalpy_factor. exact Iso. }
      rewrite E. reflexivity.
  - intros Hne. exists ho. split; [reflexivity|]. axis_units.
    assert (E : convert_value x0 (Some ho) (Some hn) "Th" "x"
                = Raise (KeyError ho)).
    { dispatch. apply convert_by_unit_missing.
      apply enthalpy_unit_no_entropy_factor. exact Iho. }
    rewrite E. reflexivity.
  - intros [= ->] [= ->]. axis_units. rewrite !convert_value_same.
    reflexivity.
Qed.

Lemma axis_limits_mismatched_converter_witness :
  exists u,
    default_unit_system !! "h" = Some u /\
    convert_diagram_axis_limits (AxisLimits 700 2100 0 700) "Th"
      default_unit_system (Frame.get_unit_system Sample.stale_window)
    = Raise (KeyError u).
Proof.
  destruct (axis_limits_mismatched_converter (AxisLimits 700 2100 0 700)
              default_unit_system
              (Frame.get_unit_system Sample.stale_window)
              default_unit_system_offered form_unit_system_offered)
    as (_ & HTh & _).
  apply HTh. vm_compute. discriminate.
Defined.

End AxisLimitConversion.

(** ** More on the plotter *)

Section MorePlotting.

Local Open Scope Q_scope.

Import Plotter Spec.

Section States.

Variable ext : collaborators.

Lemma convert_states_no_samples (fluid : string)
    (us : gmap string string) (diagram_type : string)
    (fluid_states : states_map) :
  Forall (fun point => snd point = []) fluid_states ->
  convert_states ext fluid us fluid_states diagram_type
  = Ok fluid_states.
Proof.
  induction 1 as [|[point samples] rest Hnil _ IH]; [reflexivity|].
  simpl in *. subst samples. simpl. rewrite IH. reflexivity.
Qed.

Lemma format_unsupported (diagram_type : string) (Ta Sa va pa ha : Q)
    (st : state) :
  diagram_type ∉ Units.diagram_types ->
  format_converted_state diagram_type Ta Sa va pa ha <> Ok st.
Proof.
  unfold Units.diagram_types, format_converted_state. intros H.
  repeat case_decide; subst; try discriminate; exfalso; apply H;
    decide_closed.
Qed.

(** X8. A mapping without any sample passes through [convert_states]
    unchanged whatever the diagram type; an unsupported diagram type
    is met only where there is a sample to format, so with such a
    type [convert_states] returns if and only if no point has a
    sample. *)
Theorem convert_states_unsupported_type (fluid : string)
    (us : gmap string string) (diagram_type : string)
    (fluid_states : states_map) :
  (Forall (fun point => snd point = []) fluid_states ->
   convert_states ext fluid us fluid_states diagram_type
   = Ok fluid_states) /\
  (diagram_type ∉ Units.diagram_types ->
   (exists states,
      convert_states ext fluid us fluid_states diagram_type = Ok states)
   <-> Forall (fun point => snd point = []) fluid_states).
Proof.
  split; [apply convert_states_no_samples|]. intros Hdt. split.
  - intros [states H]. revert states H.
    induction fluid_states as [|[point samples] rest IH];
      intros states H; [constructor|]. simpl in H.
    apply bind_Ok in H as (out & Hout & H).
    apply bind_Ok in H as (rest' & Hrest & _).
    constructor; [|eapply IH; exact Hrest]. simpl.
    destruct samples as [|[p h] more]; [reflexivity|]. exfalso.
    simpl in Hout.
    apply bind_Ok in Hout as ([[T S_] v] & _ & Hout).
    apply bind_Ok in Hout as (c & _ & Hout).
    apply bind_Ok in Hout as (st & Hst & _).
    eapply format_unsupported; eassumption.
  - intros H. eexists. apply convert_states_no_samples. exact H.
Qed.

(** X9. [convert_states] keeps the point names, their order and the
    number of samples of every point. *)
Theorem convert_states_keeps_shape (fluid : string)
    (us : gmap string string) (diagram_type : string)
    (fluid_states states : states_map) :
  convert_states ext fluid us fluid_states diagram_type = Ok states ->
  map fst states = map fst fluid_states /\
  map (fun point => length (snd point)) states
  = map (fun point => length (snd point)) fluid_states.
Proof.
  intros H. apply convert_states_shape in H.
  induction H as [|p p' l l' [Hn Hl] _ [IHn IHl]]; [split; reflexivity|].
  simpl. rewrite IHn, IHl, Hn, Hl. split; reflexivity.
Qed.

End States.

Lemma convert_states_unsupported_type_witness :
  convert_states Sample.stub_ext "CO2" default_unit_system
    [("1", []); ("2", [])] "pT" = Ok [("1", []); ("2", [])] /\
  ((exists states,
      convert_states Sample.stub_ext "CO2" default_unit_system
        [("1", []); ("2", [])] "pT" = Ok states)
   <-> Forall (fun point : string * list state => snd point = [])
         [("1", []); ("2", [])]).
Proof.
  destruct (convert_states_unsupported_type Sample.stub_ext "CO2"
              default_unit_system "pT" [("1", []); ("2", [])])
    as [Hsame Hiff].
  split; [apply Hsame; repeat constructor | apply Hiff; decide_closed].
Defined.

Lemma convert_states_keeps_shape_witness :
  match convert_states Sample.stub_ext "CO2" default_unit_system
          Sample.states_file "Ts" with
  | Ok states =>
      map fst states = map fst Sample.states_file /\
      map (fun point => length (snd point)) states
      = map (fun point => length (snd point)) Sample.states_file
  | Raise _ => False
  end.
Proof.
  destruct (convert_states Sample.stub_ext "CO2" default_unit_system
              Sample.states_file "Ts") as [states|e] eqn:H;
    [|vm_compute in H; discriminate].
  apply (convert_states_keeps_shape Sample.stub_ext "CO2"
           default_unit_system "Ts" Sample.states_file states H).
Defined.

(** *** What [plot_fluid_states] draws *)

Lemma markers_from_cons (n i : nat) (st : state) (rest : list state) :
  markers_from n i (st :: rest)
  = Marker (snd st) (fst st) i n :: markers_from n (S i) rest.
Proof.
  unfold markers_from. simpl. rewrite Nat.add_0_r. f_equal.
  apply imap_ext. intros j x _. simpl. f_equal. lia.
Qed.

Lemma plot_samples_labeled (name : string) (n i : nat)
    (point_states : list state) (lp : gset string) :
  name ∈ lp ->
  plot_samples name n i point_states lp
  = (markers_from n i point_states, lp).
Proof.
  intros Hin. revert i.
  induction point_states as [|[p h] rest IH]; intros i; [reflexivity|].
  simpl. rewrite decide_True by exact Hin. rewrite IH.
  rewrite markers_from_cons. reflexivity.
Qed.

Lemma plot_samples_unlabeled (name : string) (n i : nat) (st : state)
    (rest : list state) (lp : gset string) :
  name ∉ lp ->
  plot_samples name n i (st :: rest) lp
  = (Marker (snd st) (fst st) i n
       :: Annotate name (snd st) (fst st) :: markers_from n (S i) rest,
     {[name]} ∪ lp).
Proof.
  intros Hnin. destruct st as [p h]. simpl.
  rewrite decide_False by exact Hnin.
  rewrite plot_samples_labeled by set_solver. reflexivity.
Qed.

Lemma filter_markers_from (n i : nat) (point_states : list state) :
  List.filter is_marker (markers_from n i point_states)
  = markers_from n i point_states /\
  List.filter is_label (markers_from n i point_states) = [].
Proof.
  revert i. induction point_states as [|st rest IH]; intros i;
    [split; reflexivity|].
  rewrite markers_from_cons. simpl. destruct (IH (S i)) as [-> ->].
  split; reflexivity.
Qed.

Lemma markers_of_from (point_states : list state) :
  markers_of point_states
  = markers_from (length point_states) 0 point_states.
Proof. reflexivity. Qed.

(** One point: its markers, its label when the name is new, and the
    names labelled so far. *)
Lemma plot_samples_point (name : string) (point_states : list state)
    (lp : gset string) :
  let '(arts, lp') :=
    plot_samples name (length point_states) 0 point_states lp in
  List.filter is_marker arts = markers_of point_states /\
  List.filter is_label arts
  = (if decide (name ∈ lp) then [] else label_of (name, point_states)) /\
  lp ⊆ lp' /\ lp' ⊆ {[name]} ∪ lp.
Proof.
  rewrite markers_of_from. destruct (decide (name ∈ lp)) as [Hin|Hnin].
  - rewrite plot_samples_labeled by exact Hin.
    destruct (filter_markers_from (length point_states) 0 point_states)
      as [-> ->].
    repeat split; set_solver.
  - destruct point_states as [|st rest].
    + simpl. repeat split; set_solver.
    + rewrite plot_samples_unlabeled by exact Hnin.
      rewrite markers_from_cons. simpl.
      destruct (filter_markers_from (S (length rest)) 1 rest)
        as [-> ->].
      repeat split; set_solver.
Qed.

Lemma plot_points_markers (states : states_map) (lp : gset string) :
  List.filter is_marker (plot_points states lp)
  = flat_map (fun point => markers_of (snd point)) states.
Proof.
  revert lp. induction states as [|[name point_states] rest IH];
    intros lp; [reflexivity|]. simpl.
  pose proof (plot_samples_point name point_states lp) as H.
  destruct (plot_samples name (length point_states) 0 point_states lp)
    as [arts lp'].
  destruct H as (Hm & _). rewrite List.filter_app, Hm, IH. reflexivity.
Qed.

Lemma plot_points_labels (states : states_map) (lp : gset string) :
  NoDup (map fst states) ->
  (forall name, name ∈ map fst states -> name ∉ lp) ->
  List.filter is_label (plot_points states lp) = flat_map label_of states.
Proof.
  revert lp. induction states as [|[name point_states] rest IH];
    intros lp Hnd Hfresh; [reflexivity|]. simpl in *.
  apply NoDup_cons in Hnd as [Hname Hnd].
  pose proof (plot_samples_point name point_states lp) as H.
  destruct (plot_samples name (length point_states) 0 point_states lp)
    as [arts lp'].
  destruct H as (_ & Hl & _ & Hsub).
  rewrite List.filter_app, Hl, IH; [| exact Hnd |].
  - rewrite decide_False by (apply Hfresh; left). reflexivity.
  - intros other Hother Hin. apply Hsub in Hin.
    apply elem_of_union in Hin as [Hin | Hin].
    + apply elem_of_singleton in Hin as ->. contradiction.
    + eapply Hfresh; [right; exact Hother | exact Hin].
Qed.

(** X10. With distinct point names, [plot_fluid_states] draws one
    marker for every sample, in the order of the mapping, with the index
    of the sample and the sample count of its own point, and one label
    for every point that has a sample, at the first sample of the
    point. *)
Theorem plot_points_draws (states : states_map) :
  NoDup (map fst states) ->
  List.filter is_marker (plot_points states ∅)
  = flat_map (fun point => markers_of (snd point)) states /\
  List.filter is_label (plot_points states ∅) = flat_map label_of states /\
  length (List.filter is_marker (plot_points states ∅))
  = sum_list (map (fun point => length (snd point)) states).
Proof.
  intros Hnd. pose proof (plot_points_markers states ∅) as Hm.
  split; [exact Hm|]. split.
  - apply plot_points_labels; [exact Hnd | set_solver].
  - rewrite Hm. clear. induction states as [|[name sts] rest IH];
      [reflexivity|]. simpl. rewrite length_app, IH.
    unfold markers_of. rewrite length_imap. reflexivity.
Qed.

Lemma plot_points_draws_witness :
  List.filter is_marker (plot_points Sample.states_file ∅)
  = flat_map (fun point => markers_of (snd point)) Sample.states_file /\
  List.filter is_label (plot_points Sample.states_file ∅)
  = flat_map label_of Sample.states_file /\
  length (List.filter is_marker (plot_points Sample.states_file ∅))
  = sum_list (map (fun point => length (snd point)) Sample.states_file).
Proof.
  apply (plot_points_draws Sample.states_file). decide_closed.
Defined.

(** *** Lines and markers *)

Lemma next_matching_first_sample (states : states_map) (name : string)
    (st : state) :
  next (matching_states states name) = Ok st ->
  exists point rest, (point, st :: rest) ∈ states.
Proof.
  induction states as [|[point point_states] more IH]; [discriminate|].
  rewrite matching_states_cons.
  destruct (contains name point); simpl.
  - destruct point_states as [|st' rest]; simpl.
    + intros H. destruct (IH H) as (pt & r & Hin).
      exists pt, r. right. exact Hin.
    + intros [= ->]. exists point, rest. left.
  - intros H. destruct (IH H) as (pt & r & Hin).
    exists pt, r. right. exact Hin.
Qed.

Lemma first_sample_marker (states : states_map) (point : string)
    (st : state) (rest : list state) (lp : gset string) :
  (point, st :: rest) ∈ states ->
  Marker (snd st) (fst st) 0 (S (length rest)) ∈ plot_points states lp.
Proof.
  revert lp. induction states as [|[name sts] more IH]; intros lp Hin;
    [inversion Hin|]. simpl.
  destruct (plot_samples name (length sts) 0 sts lp) as [arts lp'] eqn:E.
  apply elem_of_app. apply elem_of_cons in Hin as [[= <- <-] | Hin].
  - left. destruct (decide (point ∈ lp)) as [Hl | Hl].
    + rewrite plot_samples_labeled in E by exact Hl.
      injection E as <- _. rewrite markers_from_cons. left.
    + rewrite plot_samples_unlabeled in E by exact Hl.
      injection E as <- _. left.
  - right. apply IH. exact Hin.
Qed.

(** X11. Every line that [plot_connections] draws starts and ends on
    a marker that [plot_fluid_states] has drawn for the first sample of
    a point. *)
Theorem connection_lines_join_markers (states : states_map)
    (connections : list connection) (lines : list artist) :
  plot_connections states connections = Ok lines ->
  Forall (joins_first_markers (plot_points states ∅)) lines.
Proof.
  intros H. apply plot_connections_drawn in H.
  induction H as [|[[start end_] lt] line conns lines Hd _ IH];
    constructor; [|exact IH].
  destruct Hd as (s & e & style & Hs & He & _ & ->).
  apply next_matching_first_sample in Hs as (ps & rs & Hs).
  apply next_matching_first_sample in He as (pe & re & He).
  simpl. split; eexists; eapply first_sample_marker; eassumption.
Qed.

Lemma connection_lines_join_markers_witness :
  Forall (joins_first_markers (plot_points Sample.states_file ∅))
    [Line 400 450 50 80 (LineStyle "green" "--" (Some 2))].
Proof.
  apply (connection_lines_join_markers Sample.states_file
           Sample.connections_file).
  reflexivity.
Defined.

(** *** When [create_plot] returns *)

Lemma plot_connections_Ok_iff (states : states_map)
    (connections : list connection) :
  (exists lines, plot_connections states connections = Ok lines)
  <-> forall c name,
        c ∈ connections -> name ∈ endpoints c -> sampled_in states name.
Proof.
  split.
  - intros [lines H] c name Hc Hn.
    destruct (next (matching_states states name)) as [st|e] eqn:E;
      [apply next_matching_sampled; eauto|].
    exfalso.
    assert (exists e', plot_connections states connections = Raise e')
      as [e' He'].
    { apply plot_connections_Raise_iff. exists c, name.
      split; [exact Hc|]. split; [exact Hn|].
      eapply next_matching_Raise. exact E. }
    congruence.
  - intros H.
    destruct (plot_connections states connections) as [lines|e] eqn:E;
      [eauto|]. exfalso.
    assert (exists e', plot_connections states connections = Raise e')
      as He' by eauto.
    apply plot_connections_Raise_iff in He' as (c & name & Hc & Hn & Hns).
    apply Hns. eapply H; eassumption.
Qed.

Section CreatePlot.

Variable ext : collaborators.

(** X12. Once the isolines are drawn, [create_plot] returns exactly
    when the states mapping is not empty and every endpoint name of
    every connection is contained in the name of a point that has a
    sample; it then leaves the markers and labels of the states,
    followed by one line per connection, and a colour bar whose ticks
    are those of the first point. *)
Theorem create_plot_returns_iff (self : plotter)
    (connections : list connection)
    (data : gmap string (list Q * line_style)) (u : unit) :
  get_isoline_data self = Ok data ->
  draw_isolines ext (diagram_type self) (limits self) data = Ok u ->
  ((exists fig, create_plot ext self connections = Ok fig)
   <-> states self <> [] /\
       forall c name,
         c ∈ connections -> name ∈ endpoints c ->
         sampled_in (states self) name) /\
  (forall fig,
     create_plot ext self connections = Ok fig ->
     exists lines,
       plot_connections (states self) connections = Ok lines /\
       length lines = length connections /\
       artists fig = plot_points (states self) ∅ ++ lines /\
       add_color_bar (states self) = Ok (cbar fig)).
Proof.
  intros Hdata Hdraw. unfold create_plot. rewrite Hdata. simpl.
  rewrite Hdraw. simpl. unfold plot_fluid_states.
  assert (Hlen : forall lines,
             plot_connections (states self) connections = Ok lines ->
             length lines = length connections).
  { intros lines H. apply plot_connections_drawn in H.
    symmetry. eapply Forall2_length. exact H. }
  split; [split|].
  - intros [fig H].
    destruct (states self) as [|[point sts] rest] eqn:Hst.
    + exfalso. destruct connections as [|[[s e] lt] l]; simpl in H;
        discriminate.
    + split; [discriminate|]. apply plot_connections_Ok_iff.
      destruct connections as [|c l]; [eexists; reflexivity|].
      apply bind_Ok in H as (arts & H & _).
      apply bind_Ok in H as (lines & H & _). eauto.
  - intros [Hne Hall]. apply plot_connections_Ok_iff in Hall as [lines Hl].
    destruct (states self) as [|[point sts] rest] eqn:Hst;
      [contradiction|].
    rewrite add_color_bar_cons.
    destruct connections as [|c l]; [simpl; eauto|].
    cbv beta iota. rewrite Hl. simpl. eauto.
  - intros fig H. destruct connections as [|c l].
    + exists []. simpl in H. apply bind_Ok in H as (cb & Hcb & [= <-]).
      simpl. rewrite app_nil_r. auto.
    + apply bind_Ok in H as (arts & H & H').
      apply bind_Ok in H as (lines & Hl & [= <-]).
      apply bind_Ok in H' as (cb & Hcb & [= <-]).
      exists lines. simpl. auto.
Qed.

End CreatePlot.

Lemma create_plot_returns_iff_witness :
  let self :=
    MkPlotter "CO2" default_unit_system "Ts" (AxisLimits 700 2100 10 310)
      default_isoline_settings default_isoline_styles Sample.states_file
  in
  match get_isoline_data self with
  | Ok data =>
      ((exists fig,
          create_plot Sample.stub_ext self Sample.connections_file
          = Ok fig)
       <-> states self <> [] /\
           forall c name,
             c ∈ Sample.connections_file -> name ∈ endpoints c ->
             sampled_in (states self) name) /\
      (forall fig,
         create_plot Sample.stub_ext self Sample.connections_file
         = Ok fig ->
         exists lines,
           plot_connections (states self) Sample.connections_file
           = Ok lines /\
           length lines = length Sample.connections_file /\
           artists fig = plot_points (states self) ∅ ++ lines /\
           add_color_bar (states self) = Ok (cbar fig))
  | Raise _ => False
  end.
Proof.
  intros self.
  destruct (get_isoline_data self) as [data|e] eqn:H;
    [|vm_compute in H; discriminate].
  apply (create_plot_returns_iff Sample.stub_ext self
           Sample.connections_file data tt H).
  reflexivity.
Defined.

(** *** Isoline data *)

Lemma isoline_data_of_lookup (styles : gmap string line_style)
    (settings : list (string * list Q))
    (data : gmap string (list Q * line_style)) (k : string) :
  isoline_data_of styles settings = Ok data ->
  data !! k
  = match (list_to_map settings : gmap string (list Q)) !! k,
          styles !! k with
    | Some values, Some st => Some (values, restyle st)
    | _, _ => None
    end.
Proof.
  revert data. induction settings as [|[k0 values] rest IH];
    intros data H; simpl in H.
  - injection H as <-. rewrite lookup_empty. reflexivity.
  - apply bind_Ok in H as (st & Hst & H).
    apply bind_Ok in H as (rest' & Hrest & H). injection H as <-.
    unfold getitem in Hst. destruct (styles !! k0) as [st0|] eqn:E;
      [|discriminate]. injection Hst as <-. simpl.
    destruct (decide (k0 = k)) as [->|Hne].
    + rewrite !lookup_insert_eq, E. reflexivity.
    + rewrite !lookup_insert_ne by exact Hne. apply IH. exact Hrest.
Qed.

Lemma isoline_data_of_Ok (styles : gmap string line_style)
    (settings : list (string * list Q)) :
  (exists data, isoline_data_of styles settings = Ok data)
  <-> Forall (fun kv => is_Some (styles !! fst kv)) settings.
Proof.
  induction settings as [|[k0 values] rest IH]; simpl.
  - split; [constructor | eauto].
  - split.
    + intros [data H]. apply bind_Ok in H as (st & Hst & H).
      apply bind_Ok in H as (rest' & Hrest & _).
      constructor; [|apply IH; eauto]. simpl. unfold getitem in Hst.
      destruct (styles !! k0); [eauto | discriminate].
    + intros H. apply Forall_cons in H as [[st Hst] Hrest]. simpl in Hst.
      apply IH in Hrest as [rest' Hrest'].
      unfold getitem. rewrite Hst. simpl. rewrite Hrest'. simpl. eauto.
Qed.

Lemma isoline_data_of_first_missing (styles : gmap string line_style)
    (before after : list (string * list Q)) (k : string)
    (values : list Q) :
  Forall (fun kv => is_Some (styles !! fst kv)) before ->
  styles !! k = None ->
  isoline_data_of styles (before ++ (k, values) :: after)
  = Raise (KeyError k).
Proof.
  intros Hbefore Hk.
  induction Hbefore as [|[k0 values0] rest [st Hst] _ IH]; simpl.
  - unfold getitem. rewrite Hk. reflexivity.
  - simpl in Hst. unfold getitem at 1. rewrite Hst. simpl. rewrite IH.
    reflexivity.
Qed.

(** X13. [get_isoline_data] walks the isoline settings in insertion
    order.  When every quantity of the settings has a style it returns
    data with an entry for each of them and for no other key, carrying
    the values of the settings, the colour and the dash pattern of the
    style, and a line width that is 1 when the style has none.
    Otherwise it raises [KeyError] on the first quantity, in that
    order, that has no style. *)
Theorem get_isoline_data_entries (self : plotter) :
  (Forall (fun kv => is_Some (isoline_styles self !! fst kv))
     (isoline_settings self) ->
   exists data,
     get_isoline_data self = Ok data /\
     forall k,
       data !! k
       = match (list_to_map (isoline_settings self)
                : gmap string (list Q)) !! k,
               isoline_styles self !! k with
         | Some values, Some st => Some (values, restyle st)
         | _, _ => None
         end) /\
  (forall before k values after,
     isoline_settings self = before ++ (k, values) :: after ->
     Forall (fun kv => is_Some (isoline_styles self !! fst kv)) before ->
     isoline_styles self !! k = None ->
     get_isoline_data self = Raise (KeyError k)).
Proof.
  unfold get_isoline_data. split.
  - intros H. apply isoline_data_of_Ok in H as [data H].
    exists data. split; [exact H|]. intros k.
    apply isoline_data_of_lookup. exact H.
  - intros before k values after -> Hbefore Hk.
    apply isoline_data_of_first_missing; assumption.
Qed.

Lemma get_isoline_data_entries_witness :
  get_isoline_data
    (MkPlotter "CO2" default_unit_system "Ts" (AxisLimits 700 2100 10 310)
       default_isoline_settings {[ "Q" := LineStyle "blue" "--" None ]} [])
  = Raise (KeyError "T") /\
  exists data,
    get_isoline_data
      (MkPlotter "CO2" default_unit_system "Ts"
         (AxisLimits 700 2100 10 310) default_isoline_settings
         default_isoline_styles [])
    = Ok data /\
    data !! "Q" = Some ([0; 1], LineStyle "blue" "--" (Some 2.5)).
Proof.
  split.
  - destruct (get_isoline_data_entries
                (MkPlotter "CO2" default_unit_system "Ts"
                   (AxisLimits 700 2100 10 310) default_isoline_settings
                   {[ "Q" := LineStyle "blue" "--" None ]} []))
      as [_ Hmissing].
    apply (Hmissing [("Q", [0; 1])] "T"
             [25; 50; 75; 100; 125; 150; 175; 200; 225; 250; 275; 300;
              325; 350; 375]
             (tl (tl default_isoline_settings)));
      [reflexivity | repeat constructor; eexists; reflexivity
      | reflexivity].
  - destruct (get_isoline_data_entries
                (MkPlotter "CO2" default_unit_system "Ts"
                   (AxisLimits 700 2100 10 310) default_isoline_settings
                   default_isoline_styles [])) as [Hall _].
    destruct Hall as (data & Hdata & Hlookup).
    + simpl. repeat constructor; eexists; reflexivity.
    + exists data. split; [exact Hdata|]. rewrite Hlookup. reflexivity.
Defined.

End MorePlotting.

(** ** More on the window (Frame.py) *)

Section MoreWindow.

Local Open Scope Q_scope.

Import Plotter Frame Spec.

Lemma get_axis_units_units (units : gmap string string)
    (up uT us uh uv : string) :
  units !! "p" = Some up -> units !! "T" = Some uT ->
  units !! "s" = Some us -> units !! "h" = Some uh ->
  units !! "v" = Some uv ->
  get_axis_units "Ts" units = Ok (Some us, Some uT) /\
  get_axis_units "hs" units = Ok (Some us, Some uh) /\
  get_axis_units "logph" units = Ok (Some uh, Some up) /\
  get_axis_units "Th" units = Ok (Some uh, Some uT) /\
  get_axis_units "plogv" units = Ok (Some uv, Some up).
Proof.
  intros Hp HT Hs Hh Hv.
  repeat split; unfold get_axis_units; simpl;
    rewrite ?(getitem_Some _ _ _ Hp), ?(getitem_Some _ _ _ HT),
      ?(getitem_Some _ _ _ Hs), ?(getitem_Some _ _ _ Hh),
      ?(getitem_Some _ _ _ Hv); reflexivity.
Qed.

(** X14. The unit system read from the form always has the six keys:
    on it [get_axis_units] never raises and returns the current texts
    of the two combo boxes of the axes, the plotter's [convert_units]
    never raises, and the plotter never falls back on its default unit
    system. *)
Theorem form_unit_system_complete (w : window) :
  get_axis_units "Ts" (get_unit_system w)
  = Ok (Some (text w "unit_system_s"), Some (text w "unit_system_T")) /\
  get_axis_units "hs" (get_unit_system w)
  = Ok (Some (text w "unit_system_s"), Some (text w "unit_system_h")) /\
  get_axis_units "logph" (get_unit_system w)
  = Ok (Some (text w "unit_system_h"), Some (text w "unit_system_p")) /\
  get_axis_units "Th" (get_unit_system w)
  = Ok (Some (text w "unit_system_h"), Some (text w "unit_system_T")) /\
  get_axis_units "plogv" (get_unit_system w)
  = Ok (Some (text w "unit_system_v"), Some (text w "unit_system_p")) /\
  (forall T S_ v p_pa h_jkg,
     exists c, convert_units (get_unit_system w) T S_ v p_pa h_jkg = Ok c)
  /\
  or_default (get_unit_system w) default_unit_system = get_unit_system w.
Proof.
  assert (Hp : get_unit_system w !! "p" = Some (text w "unit_system_p"))
    by reflexivity.
  assert (HT : get_unit_system w !! "T" = Some (text w "unit_system_T"))
    by reflexivity.
  assert (Hs : get_unit_system w !! "s" = Some (text w "unit_system_s"))
    by reflexivity.
  assert (Hh : get_unit_system w !! "h" = Some (text w "unit_system_h"))
    by reflexivity.
  assert (Hv : get_unit_system w !! "v" = Some (text w "unit_system_v"))
    by reflexivity.
  destruct (get_axis_units_units (get_unit_system w) _ _ _ _ _
              Hp HT Hs Hh Hv) as (H1 & H2 & H3 & H4 & H5).
  repeat (split; [assumption|]). split.
  - intros. unfold convert_units, Plotter.convert_temperature,
      Plotter.convert_entropy, Plotter.convert_volume,
      Plotter.convert_pressure, Plotter.convert_enthalpy.
    rewrite (getitem_Some _ _ _ Hp), (getitem_Some _ _ _ HT),
      (getitem_Some _ _ _ Hs), (getitem_Some _ _ _ Hh),
      (getitem_Some _ _ _ Hv). simpl.
    repeat case_decide; simpl; eauto.
  - unfold or_default. apply decide_False. intros E.
    rewrite E in Hp. discriminate Hp.
Qed.

(** X15. Nothing coalesces the deferred updates: [n] changes of the
    form leave [n] more pending timers when automatic update is
    checked and none otherwise; the button is red after the first of
    them, and neither the texts nor the dialogs are touched. *)
Theorem mark_update_needed_accumulates (n : nat) (w : window) :
  let w' := Nat.iter n mark_update_needed w in
  timers w'
  = (if auto_update_checkbox w then timers w + n else timers w)%nat /\
  ((0 < n)%nat -> update_button_style w' = needs_update_style) /\
  auto_update_checkbox w' = auto_update_checkbox w /\
  texts w' = texts w /\ dialogs w' = dialogs w /\
  shown_figure w' = shown_figure w.
Proof.
  induction n as [|n IH]; simpl.
  - repeat split; try reflexivity; try lia.
    destruct (auto_update_checkbox w); lia.
  - destruct IH as (Ht & _ & Ha & Htx & Hd & Hf).
    set (w1 := Nat.iter n mark_update_needed w) in *.
    unfold mark_update_needed. simpl. rewrite Ha.
    destruct (auto_update_checkbox w); simpl; rewrite Ht;
      repeat split; auto; lia.
Qed.

Lemma mark_update_needed_accumulates_witness :
  let w := Window ∅ true "" None None None None None [] 0 in
  timers (Nat.iter 3 mark_update_needed w) = 3%nat /\
  update_button_style (Nat.iter 3 mark_update_needed w)
  = needs_update_style.
Proof.
  intros w.
  destruct (mark_update_needed_accumulates 3 w) as (Ht & Hs & _).
  split; [exact Ht | apply Hs; lia].
Defined.

Section Update.

Variable env : environment.

Lemma load_json_files_try_frame (w w' : window) (r : result unit) :
  load_json_files_try env w = (w', r) ->
  texts w' = texts w /\ shown_figure w' = shown_figure w /\
  current_figure w' = current_figure w /\
  timers w' = timers w /\
  auto_update_checkbox w' = auto_update_checkbox w.
Proof.
  unfold load_json_files_try. intros H.
  repeat match type of H with
         | context [match ?x with _ => _ end] => destruct x
         end;
    injection H as ? ?; subst; auto.
Qed.

Lemma load_json_files_frame (w : window) :
  texts (load_json_files env w) = texts w /\
  shown_figure (load_json_files env w) = shown_figure w.
Proof.
  unfold load_json_files.
  destruct (load_json_files_try env w) as [w' r] eqn:H.
  apply load_json_files_try_frame in H as (Ht & Hf & _).
  destruct r; simpl; auto.
Qed.

(** X18. [load_json_files] replaces the fluid states as soon as their
    file has loaded: when the connections path is empty or its file
    fails to load, the window keeps the new states together with the
    connections it had, and shows one message.  When the fluid-states
    file itself cannot be loaded, neither attribute changes.  In no
    case are the texts, the button or the shown figure touched, and
    states that the window holds are never lost. *)
Theorem load_json_files_partial (w : window) :
  let w' := load_json_files env w in
  (forall m,
     text w "fluid_states_input" <> "" ->
     load_states_file env (text w "fluid_states_input") = Ok m ->
     (text w "connections_input" = "" \/
      exists e,
        load_connections_file env (text w "connections_input")
        = Raise e) ->
     fluid_states w' = Some m /\ connections w' = connections w /\
     exists message, dialogs w' = dialogs w ++ [message]) /\
  ((text w "fluid_states_input" = "" \/
    exists e,
      load_states_file env (text w "fluid_states_input") = Raise e) ->
   fluid_states w' = fluid_states w /\
   connections w' = connections w /\
   exists message, dialogs w' = dialogs w ++ [message]) /\
  (is_Some (fluid_states w) -> is_Some (fluid_states w')) /\
  (is_Some (connections w) -> is_Some (connections w')) /\
  texts w' = texts w /\
  update_button_style w' = update_button_style w /\
  shown_figure w' = shown_figure w.
Proof.
  simpl. pose proof (load_json_files_frame w) as [Ht Hf].
  pose proof (load_json_files_effect env w) as [Hs _].
  split; [|split; [|split; [|split]]]; [| | | |auto].
  - intros m Hp1 Hm Hc. unfold load_json_files, load_json_files_try.
    rewrite decide_False by exact Hp1. rewrite Hm.
    change (text (set_fluid_states m w) "connections_input")
      with (text w "connections_input").
    destruct Hc as [Hc | [e Hc]].
    + rewrite decide_True by exact Hc. simpl. repeat split; eauto.
    + rewrite Hc. case_decide; simpl; repeat split; eauto.
  - intros Hc. unfold load_json_files, load_json_files_try.
    destruct Hc as [Hc | [e Hc]].
    + rewrite decide_True by exact Hc. simpl. repeat split; eauto.
    + rewrite Hc. case_decide; simpl; repeat split; eauto.
  - intros [m Hm]. unfold load_json_files, load_json_files_try.
    repeat match goal with
           | |- context [decide ?P] => destruct (decide P)
           | |- context [load_states_file env ?p] =>
               destruct (load_states_file env p)
           | |- context [load_connections_file env ?p] =>
               destruct (load_connections_file env p)
           end; simpl; rewrite ?Hm; eexists; reflexivity.
  - intros [l Hl]. unfold load_json_files, load_json_files_try.
    repeat match goal with
           | |- context [decide ?P] => destruct (decide P)
           | |- context [load_states_file env ?p] =>
               destruct (load_states_file env p)
           | |- context [load_connections_file env ?p] =>
               destruct (load_connections_file env p)
           end; simpl; rewrite ?Hl; eexists; reflexivity.
Qed.

Lemma update_plot_try_frame (w w' : window) (r : result unit) :
  update_plot_try env w = (w', r) ->
  texts w' = texts w /\ timers w' = timers w.
Proof.
  unfold update_plot_try. intros H.
  assert (Hl : texts (load_json_files env w) = texts w /\
               timers (load_json_files env w) = timers w).
  { unfold load_json_files.
    destruct (load_json_files_try env w) as [w0 r0] eqn:E.
    apply load_json_files_try_frame in E as (Ht & _ & _ & Hti & _).
    destruct r0; simpl; auto. }
  destruct Hl as [Ht Hti].
  repeat match type of H with
         | context [match ?x with _ => _ end] => destruct x
         end;
    injection H as ? ?; subst; simpl; auto.
Qed.

(** The statements of the [try] of [update_plot] that ran when it
    came to its end. *)
Lemma update_plot_try_Ok_inv (w w' : window) (u : unit) :
  update_plot_try env w = (w', Ok u) ->
  exists rq m l pl fig,
    read_form env (load_json_files env w) = Ok rq /\
    fluid_states (load_json_files env w) = Some m /\
    connections (load_json_files env w) = Some l /\
    init (ext env) m (req_fluid rq) (req_unit_system rq)
      (req_diagram_type rq) (req_limits rq) (req_isoline_settings rq)
      (req_isoline_styles rq) = Ok pl /\
    create_plot (ext env) pl l = Ok fig /\
    w' = setStyleSheet ""
           (show_figure
              (set_figure fig
                 (set_plotter pl
                    (clear_figure (load_json_files env w))))).
Proof.
  unfold update_plot_try. set (w1 := load_json_files env w).
  intros H. destruct (read_form env w1) as [rq|e] eqn:Hrq;
    [|discriminate H].
  simpl in H. destruct (fluid_states w1) as [m|] eqn:Hm;
    [|discriminate H]. simpl in H.
  destruct (init _ _ _ _ _ _ _ _) as [pl|e] eqn:Hpl; [|discriminate H].
  simpl in H. destruct (connections w1) as [l|] eqn:Hl;
    [|discriminate H]. simpl in H.
  destruct (create_plot _ _ _) as [fig|e] eqn:Hfig; [|discriminate H].
  destruct (canvas_draw env fig) as [d|e]; [|discriminate H].
  injection H as <- _. exists rq, m, l, pl, fig. repeat split; auto.
Qed.

(** X16. When a statement of the [try] of [update_plot] raises, the
    window shows one more message, "Error: " followed by the text of
    a [ValueError] and "Unexpected Error: " followed by the text of
    any other exception; the button, the texts, the pending timers
    and the shown figure stay as they were. *)
Theorem update_plot_failure_report (w w' : window) (e : exn) :
  update_plot_try env w = (w', Raise e) ->
  dialogs (update_plot env w)
  = dialogs (load_json_files env w)
      ++ [(if is_ValueError e then "Error: " else "Unexpected Error: ")
          +:+ str e] /\
  update_button_style (update_plot env w) = update_button_style w /\
  shown_figure (update_plot env w) = shown_figure w /\
  texts (update_plot env w) = texts w /\
  timers (update_plot env w) = timers w.
Proof.
  intros H. pose proof (update_plot_try_frame _ _ _ H) as [Ht Hti].
  pose proof (update_plot_try_Raise env _ _ _ H) as (Hs & Hd & Hf).
  pose proof (load_json_files_frame w) as [_ Hlf].
  unfold update_plot. rewrite H.
  destruct (is_ValueError e); simpl; rewrite Hd, Hs, Hf, Hlf, Ht, Hti;
    auto.
Qed.

(** X17. When the [try] of [update_plot] runs to its end, the figure
    that the window shows is the one that [create_plot] returned for
    the plotter built from the fluid states and the connections that
    the window now holds; the button style is cleared, and no message
    is shown beyond the one of [load_json_files], if any. *)
Theorem update_plot_success_shows_plot (w w' : window) (u : unit) :
  update_plot_try env w = (w', Ok u) ->
  update_plot env w = w' /\
  update_button_style w' = "" /\
  dialogs w' = dialogs (load_json_files env w) /\
  texts w' = texts w /\
  exists rq m l pl fig,
    read_form env (load_json_files env w) = Ok rq /\
    fluid_states w' = Some m /\ connections w' = Some l /\
    current_plotter w' = Some pl /\
    init (ext env) m (req_fluid rq) (req_unit_system rq)
      (req_diagram_type rq) (req_limits rq) (req_isoline_settings rq)
      (req_isoline_styles rq) = Ok pl /\
    create_plot (ext env) pl l = Ok fig /\
    shown_figure w' = Some fig /\ current_figure w' = Some fig.
Proof.
  intros H. pose proof (update_plot_try_frame _ _ _ H) as [Ht _].
  split; [unfold update_plot; rewrite H; reflexivity|].
  apply update_plot_try_Ok_inv in H
    as (rq & m & l & pl & fig & Hrq & Hm & Hl & Hpl & Hfig & ->).
  simpl in *. repeat split; auto.
  exists rq, m, l, pl, fig. repeat split; auto.
Qed.

End Update.

Lemma load_json_files_partial_witness :
  let w :=
    Window (<["fluid_states_input" := "states.json"]> Sample.initial_texts)
      false "" None None None None None [] 0 in
  fluid_states (load_json_files Sample.env w) = Some Sample.states_file /\
  connections (load_json_files Sample.env w) = connections w /\
  exists message,
    dialogs (load_json_files Sample.env w) = dialogs w ++ [message].
Proof.
  intros w. destruct (load_json_files_partial Sample.env w) as (H & _).
  apply (H Sample.states_file);
    [vm_compute; discriminate | vm_compute; reflexivity
    | left; vm_compute; reflexivity].
Defined.

Lemma update_plot_failure_report_witness :
  match update_plot_try Sample.env Sample.malformed_window with
  | (_, Raise e) =>
      dialogs (update_plot Sample.env Sample.malformed_window)
      = dialogs (load_json_files Sample.env Sample.malformed_window)
          ++ [(if is_ValueError e then "Error: "
               else "Unexpected Error: ") +:+ str e] /\
      update_button_style (update_plot Sample.env Sample.malformed_window)
      = update_button_style Sample.malformed_window /\
      shown_figure (update_plot Sample.env Sample.malformed_window)
      = shown_figure Sample.malformed_window /\
      texts (update_plot Sample.env Sample.malformed_window)
      = texts Sample.malformed_window /\
      timers (update_plot Sample.env Sample.malformed_window)
      = timers Sample.malformed_window
  | (_, Ok _) => False
  end.
Proof.
  destruct (update_plot_try Sample.env Sample.malformed_window)
    as [w' [u|e]] eqn:H; [vm_compute in H; discriminate|].
  apply (update_plot_failure_report Sample.env Sample.malformed_window
           w' e H).
Defined.

Lemma update_plot_success_shows_plot_witness :
  match update_plot_try Sample.env Sample.stale_window with
  | (w', Ok _) =>
      update_plot Sample.env Sample.stale_window = w' /\
      update_button_style w' = "" /\
      shown_figure w' = current_figure w' /\
      is_Some (shown_figure w')
  | (_, Raise _) => False
  end.
Proof.
  destruct (update_plot_try Sample.env Sample.stale_window)
    as [w' [u|e]] eqn:H; [|vm_compute in H; discriminate].
  destruct (update_plot_success_shows_plot Sample.env Sample.stale_window
              w' u H)
    as (Hu & Hs & _ & _ & rq & m & l & pl & fig & _ & _ & _ & _ & _ & _
        & Hshown & Hcur).
  rewrite Hshown, Hcur. repeat split; eauto.
Defined.

Section Slots.

Variable emits : string -> string -> bool.

Lemma text_mark_update_needed (w : window) (widget : string) :
  text (mark_update_needed w) widget = text w widget.
Proof.
  unfold mark_update_needed. simpl.
  destruct (auto_update_checkbox w); reflexivity.
Qed.

Lemma style_mark_update_needed (w : window) :
  update_button_style (mark_update_needed w) = needs_update_style.
Proof.
  unfold mark_update_needed. simpl.
  destruct (auto_update_checkbox w); reflexivity.
Qed.

Lemma text_setText (a b : string) (w : window) (widget : string) :
  text (setText emits a b w) widget
  = if decide (a = widget) then b else text w widget.
Proof.
  unfold setText. destruct (emits _ _);
    rewrite ?text_mark_update_needed; unfold text; simpl;
    case_decide; subst;
    rewrite ?lookup_total_insert_eq, ?lookup_total_insert_ne by done;
    reflexivity.
Qed.

(** Closed string concatenations, evaluated. *)
Ltac widget_names :=
  repeat match goal with
         | |- context [?a +:+ ?b] =>
             let r := eval vm_compute in (a +:+ b) in
             change (a +:+ b) with r
         end.

Ltac limits_cases :=
  unfold set_axis_limits_from; widget_names; rewrite !text_setText;
  repeat case_decide; simplify_eq; try reflexivity.

Lemma update_axis_limits_texts (diagram_type kx ky : string)
    (w : window) :
  get_axis_units diagram_type key_units = Ok (Some kx, Some ky) ->
  let w' := update_axis_limits emits diagram_type w in
  text w' "xmin_input" = text w (isoline_prefix kx +:+ "_start_input") /\
  text w' "xmax_input" = text w (isoline_prefix kx +:+ "_end_input") /\
  text w' "ymin_input" = text w (isoline_prefix ky +:+ "_start_input") /\
  text w' "ymax_input" = text w (isoline_prefix ky +:+ "_end_input") /\
  (forall widget,
     widget ∉ ["xmin_input"; "xmax_input"; "ymin_input"; "ymax_input"] ->
     text w' widget = text w widget).
Proof.
  intros H. unfold get_axis_units in H. simpl.
  assert (Hother : forall x y widget,
             widget ∉ ["xmin_input"; "xmax_input"; "ymin_input";
                       "ymax_input"] ->
             text (set_axis_limits_from emits x y w) widget
             = text w widget).
  { intros x y widget Hw. unfold set_axis_limits_from.
    rewrite !text_setText.
    apply not_elem_of_cons in Hw as [? Hw].
    apply not_elem_of_cons in Hw as [? Hw].
    apply not_elem_of_cons in Hw as [? Hw].
    apply not_elem_of_cons in Hw as [? Hw].
    repeat case_decide; congruence. }
  unfold update_axis_limits.
  repeat case_decide; subst; vm_compute in H; try discriminate H;
    injection H as <- <-;
    (repeat split; [limits_cases .. | apply Hother]).
Qed.

Lemma update_axis_limits_unknown (diagram_type : string) (w : window) :
  get_axis_units diagram_type key_units = Ok (None, None) ->
  update_axis_limits emits diagram_type w = w.
Proof.
  intros H. unfold get_axis_units in H. unfold update_axis_limits.
  repeat case_decide; subst; try reflexivity; vm_compute in H;
    discriminate H.
Qed.

(** X19. [update_axis_limits] and [get_axis_units] agree on what each
    axis carries: the limits of the x axis are set to the isoline
    range of the quantity whose unit [get_axis_units] returns first,
    those of the y axis to the range of the second, and no other
    field of the form changes; for a diagram type that
    [get_axis_units] does not know, the window is left as it is. *)
Theorem update_axis_limits_follows_axis_units (diagram_type : string)
    (w : window) :
  (forall kx ky,
     get_axis_units diagram_type key_units = Ok (Some kx, Some ky) ->
     let w' := update_axis_limits emits diagram_type w in
     text w' "xmin_input"
     = text w (isoline_prefix kx +:+ "_start_input") /\
     text w' "xmax_input" = text w (isoline_prefix kx +:+ "_end_input") /\
     text w' "ymin_input"
     = text w (isoline_prefix ky +:+ "_start_input") /\
     text w' "ymax_input" = text w (isoline_prefix ky +:+ "_end_input") /\
     (forall widget,
        widget ∉ ["xmin_input"; "xmax_input"; "ymin_input";
                  "ymax_input"] ->
        text w' widget = text w widget)) /\
  (get_axis_units diagram_type key_units = Ok (None, None) ->
   update_axis_limits emits diagram_type w = w).
Proof.
  split; [intros kx ky H; apply update_axis_limits_texts; exact H|].
  apply update_axis_limits_unknown.
Qed.

Lemma text_set_isoline_defaults
    (h_start h_end p_start p_end s_start s_end t_start t_end v_start
       v_end q_start q_end : string) (w : window) (widget : string) :
  widget ∉ ["h_start_input"; "h_end_input"; "p_start_input";
            "p_end_input"; "s_start_input"; "s_end_input";
            "t_start_input"; "t_end_input"; "v_start_input";
            "v_end_input"; "q_start_input"; "q_end_input"] ->
  text (set_isoline_defaults emits h_start h_end p_start p_end s_start
          s_end t_start t_end v_start v_end q_start q_end w) widget
  = text w widget.
Proof.
  intros Hw. unfold set_isoline_defaults. rewrite !text_setText.
  repeat (apply not_elem_of_cons in Hw as [? Hw]).
  repeat case_decide; congruence.
Qed.

(** X20. [update_default_isoline_values] always leaves the button
    red, and on a diagram type that [get_axis_units] knows it leaves
    the limits of each axis equal to the isoline range that the form
    then shows for the quantity of that axis.  For a fluid other than
    H2O and CO2 every field but the four limits keeps its text. *)
Theorem update_default_isoline_values_limits (w : window) :
  let w' := update_default_isoline_values emits w in
  update_button_style w' = needs_update_style /\
  (forall kx ky,
     get_axis_units (text w "diagram_type_input") key_units
     = Ok (Some kx, Some ky) ->
     text w' "xmin_input"
     = text w' (isoline_prefix kx +:+ "_start_input") /\
     text w' "xmax_input"
     = text w' (isoline_prefix kx +:+ "_end_input") /\
     text w' "ymin_input"
     = text w' (isoline_prefix ky +:+ "_start_input") /\
     text w' "ymax_input"
     = text w' (isoline_prefix ky +:+ "_end_input")) /\
  (text w "fluid_input" <> "H2O" -> text w "fluid_input" <> "CO2" ->
   forall widget,
     widget ∉ ["xmin_input"; "xmax_input"; "ymin_input"; "ymax_input"] ->
     text w' widget = text w widget).
Proof.
  simpl. unfold update_default_isoline_values.
  set (w1 := if decide (text w "fluid_input" = "H2O") then _ else _).
  split; [apply style_mark_update_needed|].
  assert (Hdt : text w1 "diagram_type_input"
                = text w "diagram_type_input").
  { unfold w1. repeat case_decide; try reflexivity;
      apply text_set_isoline_defaults; decide_closed. }
  rewrite Hdt. split.
  - intros kx ky H. rewrite !text_mark_update_needed.
    destruct (update_axis_limits_texts _ kx ky w1 H)
      as (Hx0 & Hx1 & Hy0 & Hy1 & Hother).
    simpl in Hother. rewrite Hx0, Hx1, Hy0, Hy1.
    unfold get_axis_units in H.
    repeat case_decide; vm_compute in H; try discriminate H;
      injection H as <- <-;
      (repeat split; symmetry; apply Hother; decide_closed).
  - intros H1 H2 widget Hw. rewrite text_mark_update_needed.
    unfold w1. rewrite !decide_False by assumption.
    destruct (get_axis_units (text w "diagram_type_input") key_units)
      as [[[kx|] [ky|]]|e] eqn:H.
    + apply (update_axis_limits_texts _ kx ky w H). exact Hw.
    + unfold get_axis_units in H.
      repeat case_decide; vm_compute in H; discriminate H.
    + unfold get_axis_units in H.
      repeat case_decide; vm_compute in H; discriminate H.
    + rewrite (update_axis_limits_unknown _ w H). reflexivity.
    + unfold get_axis_units in H.
      repeat case_decide; vm_compute in H; discriminate H.
Qed.

End Slots.

Lemma update_axis_limits_follows_axis_units_witness :
  let w' := update_axis_limits (fun _ _ => true) "hs" Sample.stale_window in
  text w' "xmin_input" = "700" /\ text w' "xmax_input" = "2100" /\
  text w' "ymin_input" = "0" /\ text w' "ymax_input" = "700" /\
  update_axis_limits (fun _ _ => true) "pT" Sample.stale_window
  = Sample.stale_window.
Proof.
  intros w'. subst w'.
  destruct (update_axis_limits_follows_axis_units (fun _ _ => true) "hs"
              Sample.stale_window) as [Hknown _].
  destruct (update_axis_limits_follows_axis_units (fun _ _ => true) "pT"
              Sample.stale_window) as [_ Hunknown].
  destruct (Hknown "s" "h" eq_refl) as (H1 & H2 & H3 & H4 & _).
  split; [rewrite H1; reflexivity|]. split; [rewrite H2; reflexivity|].
  split; [rewrite H3; reflexivity|]. split; [rewrite H4; reflexivity|].
  apply Hunknown. reflexivity.
Defined.

Lemma update_default_isoline_values_limits_witness :
  let w' :=
    update_default_isoline_values (fun _ _ => true) Sample.stale_window in
  update_button_style w' = needs_update_style /\
  text w' "xmin_input" = text w' "s_start_input" /\
  text w' "ymax_input" = text w' "t_end_input".
Proof.
  intros w'. subst w'.
  destruct (update_default_isoline_values_limits (fun _ _ => true)
              Sample.stale_window) as (Hs & Hl & _).
  destruct (Hl "s" "T" eq_refl) as (H1 & _ & _ & H4).
  split; [exact Hs|]. split; [exact H1 | exact H4].
Defined.

End MoreWindow.
